(** * motion-master-client: the command line front end, [src/cli.ts]

    A shallow embedding of the command line program of the Motion Master
    client and the properties of its four commands ([request], [upload],
    [download], [monitor]).

    - ECMAScript values used by the program: Numbers are IEEE 754 binary64
      values ([spec_float] at precision 53), strings are sequences of code
      units in the range U+0000 to U+00FF, [undefined] is [None].
    - The built-ins [String.prototype.split], [parseInt], [parseFloat],
      [Number.isInteger] and the truthiness test follow ECMA-262.
    - [MotionMasterClient] (module [./motion-master-client]) is not part of
      the program text: each call on it is recorded, in order, in the trace
      of the run; the answer of a position lookup is a parameter.
    - The RxJS operators [filter] and [first] are push-based operators with
      their own state. *)

From Stdlib Require Import ZArith List String Ascii Bool Lia DecimalString.
From Stdlib Require Import Floats.SpecFloat.
Import ListNotations.

Local Open Scope string_scope.
Local Open Scope list_scope.
Local Open Scope Z_scope.

(** ** ECMAScript Numbers *)

Module Number.

Definition prec : Z := 53.
Definition emax : Z := 1024.

Definition t : Type := spec_float.

Definition NaN : t := S754_nan.
Definition Infinity (negative : bool) : t := S754_infinity negative.

(** The Number value for a mathematical integer, round to nearest, ties
    to even; [negative] is the sign given to a zero. *)
Definition of_Z (z : Z) (negative : bool) : t :=
  binary_normalize prec emax z 0 negative.

(** The Number value for [m * 10^e] with [0 <= m], of the given sign. *)
Definition of_decimal (negative : bool) (m : Z) (e : Z) : t :=
  match m with
  | Zpos p =>
      if 0 <=? e
      then of_Z (if negative then - (m * 10 ^ e) else m * 10 ^ e) negative
      else SFdiv prec emax (S754_finite negative p 0)
                           (S754_finite false (Z.to_pos (10 ^ (- e))) 0)
  | _ => S754_zero negative
  end.

(** ToBoolean on a Number: [+0], [-0] and [NaN] are falsy. *)
Definition ToBoolean (x : t) : bool :=
  match x with
  | S754_zero _ | S754_nan => false
  | S754_infinity _ | S754_finite _ _ _ => true
  end.

Definition isNaN (x : t) : bool :=
  match x with S754_nan => true | _ => false end.

(** [Number.isInteger]: finite and without fractional part. *)
Definition isInteger (x : t) : bool :=
  match x with
  | S754_zero _ => true
  | S754_finite _ m e =>
      if 0 <=? e then true else (Zpos m mod 2 ^ (- e) =? 0)
  | S754_infinity _ | S754_nan => false
  end.

(** The mathematical value of an integral Number. *)
Definition to_Z (x : t) : option Z :=
  match x with
  | S754_zero _ => Some 0
  | S754_finite s m e =>
      if 0 <=? e then Some (cond_Zopp s (Zpos m * 2 ^ e))
      else if Zpos m mod 2 ^ (- e) =? 0
           then Some (cond_Zopp s (Zpos m / 2 ^ (- e)))
           else None
  | S754_infinity _ | S754_nan => None
  end.

End Number.

Definition number : Type := Number.t.

(** ** ECMAScript strings *)

(** ToString of a value that is a string or [undefined]. *)
Definition ToString (v : option string) : string :=
  match v with
  | Some s => s
  | None => "undefined"
  end.

(** [s.split(sep)] for a separator of one code unit: the pieces between
    the occurrences of [sep], never an empty array. *)
Fixpoint split (sep : ascii) (s : string) : list string :=
  match s with
  | EmptyString => [EmptyString]
  | String c rest =>
      if Ascii.eqb c sep then EmptyString :: split sep rest
      else match split sep rest with
           | piece :: pieces => String c piece :: pieces
           | [] => [String c EmptyString]
           end
  end.

(** WhiteSpace and LineTerminator code units below U+0100. *)
Definition isWhiteSpace (c : ascii) : bool :=
  let n := Z.of_nat (nat_of_ascii c) in
  ((9 <=? n) && (n <=? 13)) || (n =? 32) || (n =? 160).

Fixpoint trimStart (s : string) : string :=
  match s with
  | String c rest => if isWhiteSpace c then trimStart rest else s
  | EmptyString => EmptyString
  end.

(** The value of a code unit as a digit: [0-9], then [a-z] or [A-Z] for
    10 to 35. *)
Definition digitValue (c : ascii) : option Z :=
  let n := Z.of_nat (nat_of_ascii c) in
  if (48 <=? n) && (n <=? 57) then Some (n - 48)
  else if (97 <=? n) && (n <=? 122) then Some (n - 87)
  else if (65 <=? n) && (n <=? 90) then Some (n - 55)
  else None.

Definition radixDigit (R : Z) (c : ascii) : option Z :=
  match digitValue c with
  | Some d => if d <? R then Some d else None
  | None => None
  end.

(** The digits of the longest prefix of [s] made of radix-[R] digits, and
    what follows it. *)
Fixpoint spanDigits (R : Z) (s : string) : list Z * string :=
  match s with
  | String c rest =>
      match radixDigit R c with
      | Some d => let '(ds, tail) := spanDigits R rest in (d :: ds, tail)
      | None => ([], s)
      end
  | EmptyString => ([], EmptyString)
  end.

(** The integer denoted by digits in radix [R], most significant first. *)
Definition mathInt (R : Z) (ds : list Z) : Z :=
  fold_left (fun acc d => acc * R + d) ds 0.

Definition stripSign (s : string) : bool * string :=
  match s with
  | String c rest =>
      if Ascii.eqb c "-" then (true, rest)
      else if Ascii.eqb c "+" then (false, rest)
      else (false, s)
  | EmptyString => (false, s)
  end.

Definition strip0x (s : string) : option string :=
  match s with
  | String "0" (String c rest) =>
      if Ascii.eqb c "x" || Ascii.eqb c "X" then Some rest else None
  | _ => None
  end.

(** [parseInt(string, radix)], ECMA-262 19.2.5; [radix] is already an
    int32 (the program passes the literals 16 and 10). *)
Definition parseInt (input : option string) (radix : Z) : number :=
  let inputString := ToString input in
  let '(negative, str) := stripSign (trimStart inputString) in
  if negb (radix =? 0) && ((radix <? 2) || (36 <? radix)) then Number.NaN
  else
    let stripPrefix := (radix =? 0) || (radix =? 16) in
    let R := if radix =? 0 then 10 else radix in
    let '(str, R) :=
      match (if stripPrefix then strip0x str else None) with
      | Some rest => (rest, 16)
      | None => (str, R)
      end in
    match fst (spanDigits R str) with
    | [] => Number.NaN
    | digits => Number.of_Z (cond_Zopp negative (mathInt R digits)) negative
    end.

(** ExponentPart: [e] or [E], an optional sign and at least one digit;
    absent (value 0) when the text does not continue that way. *)
Definition exponentPart (s : string) : Z :=
  match s with
  | String c rest =>
      if Ascii.eqb c "e" || Ascii.eqb c "E" then
        let '(negative, digits) := stripSign rest in
        match fst (spanDigits 10 digits) with
        | [] => 0
        | ds => cond_Zopp negative (mathInt 10 ds)
        end
      else 0
  | EmptyString => 0
  end.

(** [parseFloat(string)], ECMA-262 19.2.4: the value of the longest prefix
    of the trimmed input that is a StrDecimalLiteral, [NaN] without one. *)
Definition parseFloat (input : option string) : number :=
  let inputString := ToString input in
  let '(negative, str) := stripSign (trimStart inputString) in
  if String.prefix "Infinity" str then Number.Infinity negative
  else
    let '(intDigits, afterInt) := spanDigits 10 str in
    let '(fracDigits, afterFrac) :=
      match afterInt with
      | String "." rest => spanDigits 10 rest
      | _ => ([], afterInt)
      end in
    match intDigits, fracDigits with
    | [], [] => Number.NaN
    | _, _ =>
        Number.of_decimal negative
          (mathInt 10 (intDigits ++ fracDigits))
          (exponentPart afterFrac - Z.of_nat (List.length fracDigits))
    end.

(** ** Parameters of device objects, [cli.ts] lines 174-189 *)

Module ParameterAddress.
Record t : Type := mk { index : number; subindex : number }.
End ParameterAddress.

Module ParameterValue.
Record t : Type := mk {
  index : number;
  subindex : number;
  intValue : number;
  uintValue : number;
  floatValue : number
}.
End ParameterValue.

(** [const [a, b] = pieces]: the elements at 0 and 1, [undefined] when the
    array is shorter. [split] yields at least one piece (lemma
    [split_first]), so the element at 0 is a string. *)
Definition element0 (pieces : list string) : string := hd EmptyString pieces.
Definition element1 (pieces : list string) : option string := nth_error pieces 1.

Definition paramToIndexAndSubindex (param : string) : ParameterAddress.t :=
  let pieces := split ":" param in
  let indexStr := element0 pieces in
  let subindexStr := element1 pieces in
  let index := parseInt (Some indexStr) 16 in
  let subindex := parseInt subindexStr 10 in
  ParameterAddress.mk index subindex.

Definition paramValueToIndexAndSubindex (paramValue : string) : ParameterValue.t :=
  let pieces := split "=" paramValue in
  let param := element0 pieces in
  let valueStr := element1 pieces in
  let address := paramToIndexAndSubindex param in
  let value := parseFloat valueStr in
  let intValue := value in
  let uintValue := value in
  let floatValue := value in
  ParameterValue.mk (ParameterAddress.index address)
                    (ParameterAddress.subindex address)
                    intValue uintValue floatValue.

Definition parseOptionValueAsInt (value : string) : number :=
  parseInt (Some value) 10.

(** ** Command options, as commander hands them to an action *)

Module Command.
(** [deviceAddress] has a value parser and no default: [undefined] when
    [-d] is absent. [devicePosition] defaults to the Number 0. [interval]
    exists for [monitor] only, with default [1 * 1000 * 1000]. *)
Record t : Type := mk {
  deviceAddress : option number;
  devicePosition : number;
  interval : option number
}.
End Command.

(** The options of [request], [upload] and [download] from the texts given
    after [-d] and [-p]. *)
Definition commandOptions (d p : option string) : Command.t :=
  Command.mk (option_map parseOptionValueAsInt d)
             (match p with
              | Some value => parseOptionValueAsInt value
              | None => Number.of_Z 0 false
              end)
             None.

(** The options of [monitor], [-i] included. *)
Definition monitorOptions (d p i : option string) : Command.t :=
  Command.mk (option_map parseOptionValueAsInt d)
             (match p with
              | Some value => parseOptionValueAsInt value
              | None => Number.of_Z 0 false
              end)
             (Some (match i with
                    | Some value => parseOptionValueAsInt value
                    | None => Number.of_Z (1 * 1000 * 1000) false
                    end)).

(** ** The client and what the program does with it *)

Module Device.
Record t : Type := mk { deviceAddress : number }.
End Device.

Module MotionMasterMessage.
Record t : Type := mk { id : string; content : string }.
End MotionMasterMessage.

Module Notification.
Record t : Type := mk { topic : string; message : string }.
End Notification.

(** A call on [motionMasterClient], with the arguments given at the call
    site. *)
Inductive client_call : Type :=
| getDeviceAtPosition (position : number)
| requestGetSystemVersion (messageId : string)
| requestGetDeviceInfo (messageId : string)
| requestGetDeviceParameterInfo (deviceAddress : option number) (messageId : string)
| requestGetDeviceParameterValues (deviceAddress : option number)
    (parameters : list ParameterAddress.t) (messageId : string)
| requestGetDeviceFileList (deviceAddress : option number)
| requestGetDeviceLog (deviceAddress : option number)
| requestSetDeviceParameterValues (deviceAddress : option number)
    (parameters : list ParameterValue.t) (messageId : string)
| startMonitoringDeviceParameterValues (interval : option number) (topic : string)
    (parameters : list ParameterAddress.t) (deviceAddress : option number).

(** What a run does, in program order. *)
Inductive effect : Type :=
| Call (c : client_call)
(** [motionMasterMessage$.pipe(filter, first()).subscribe(...)] of
    [exitOnMessageReceived] *)
| SubscribeMessage (messageId : string) (exit : bool)
(** [filterNotificationByTopic$(topic).subscribe(...)] of [monitor] *)
| SubscribeNotification (topic : string).

(** What an observer does when a value reaches it. *)
Inductive signal : Type :=
| ProcessExit
| ConsoleLog (timestamp : Z) (topic : string) (message : string).

(** The correlation identifier a request call is given, if any. *)
Definition messageIdOf (c : client_call) : option string :=
  match c with
  | requestGetSystemVersion messageId
  | requestGetDeviceInfo messageId
  | requestGetDeviceParameterInfo _ messageId
  | requestGetDeviceParameterValues _ _ messageId
  | requestSetDeviceParameterValues _ _ messageId => Some messageId
  | getDeviceAtPosition _
  | requestGetDeviceFileList _
  | requestGetDeviceLog _
  | startMonitoringDeviceParameterValues _ _ _ _ => None
  end.

(** The device address a call is given; [None] for calls without one. *)
Definition deviceAddressOf (c : client_call) : option (option number) :=
  match c with
  | requestGetDeviceParameterInfo a _
  | requestGetDeviceParameterValues a _ _
  | requestGetDeviceFileList a
  | requestGetDeviceLog a
  | requestSetDeviceParameterValues a _ _
  | startMonitoringDeviceParameterValues _ _ _ a => Some a
  | getDeviceAtPosition _
  | requestGetSystemVersion _
  | requestGetDeviceInfo _ => None
  end.

Definition isLookup (c : client_call) : bool :=
  match c with getDeviceAtPosition _ => true | _ => false end.

Definition isRequest (e : effect) : bool :=
  match e with
  | Call c => negb (isLookup c)
  | _ => false
  end.

(** ** RxJS operators

    An operator holds a state and, for each value pushed into it, pushes
    values on. *)

Module Rx.

Record operator (A B : Type) : Type := mk {
  state : Type;
  init : state;
  next : state -> A -> state * list B
}.
Arguments mk {A B state}.
Arguments state {A B}.
Arguments init {A B}.
Arguments next {A B}.

(** Push the values [xs], one after the other. *)
Fixpoint nexts {A B} (o : operator A B) (s : state o) (xs : list A)
  : state o * list B :=
  match xs with
  | [] => (s, [])
  | x :: xs' =>
      let '(s1, out1) := next o s x in
      let '(s2, out2) := nexts o s1 xs' in
      (s2, out1 ++ out2)
  end.

(** [filter(predicate)] *)
Definition filter {A} (predicate : A -> bool) : operator A A :=
  mk tt (fun _ x => (tt, if predicate x then [x] else [])).

(** [first()]: the first value is passed on, then the operator has
    completed and has left its source. The state tells whether that
    happened. *)
Definition first {A} : operator A A :=
  mk false (fun completed x => if completed then (true, []) else (true, [x])).

(** [source.pipe(f, g)] *)
Definition pipe {A B C} (f : operator A B) (g : operator B C) : operator A C :=
  mk (init f, init g)
     (fun s x =>
        let '(sf, out) := next f (fst s) x in
        let '(sg, out') := nexts g (snd s) out in
        ((sf, sg), out')).

(** [source.subscribe(observer)]: the observer runs on each value. *)
Definition subscribe {A B E} (o : operator A B) (observer : B -> list E)
  : operator A E :=
  mk (init o)
     (fun s x => let '(s', out) := next o s x in (s', flat_map observer out)).

(** What comes out for each of the values pushed in, from the initial
    state. *)
Fixpoint run_from {A B} (o : operator A B) (s : state o) (xs : list A)
  : list (list B) :=
  match xs with
  | [] => []
  | x :: xs' => let '(s', out) := next o s x in out :: run_from o s' xs'
  end.

Definition run {A B} (o : operator A B) (xs : list A) : list (list B) :=
  run_from o (init o) xs.

End Rx.

(** The observer of [exitOnMessageReceived], lines 205-212. *)
Definition exitOnMessageReceived_observer (messageId : string) (exit : bool)
  : Rx.operator MotionMasterMessage.t signal :=
  Rx.subscribe
    (Rx.pipe
       (Rx.filter (fun message => String.eqb (MotionMasterMessage.id message) messageId))
       Rx.first)
    (fun _ => if exit then [ProcessExit] else []).

(** Modelled from the spec: [filterNotificationByTopic$] of the client
    (section 4.2, [filterByTopic]): the notifications whose topic equals
    the argument exactly, none buffered, none dropped. *)
Definition filterNotificationByTopic (topic : string)
  : Rx.operator (Z * Notification.t) (Z * Notification.t) :=
  Rx.filter (fun n => String.eqb (Notification.topic (snd n)) topic).

(** The observer of [monitor], lines 160-166; a notification comes with
    the time [Date.now()] at which it is handled. *)
Definition monitor_observer (topic : string)
  : Rx.operator (Z * Notification.t) signal :=
  Rx.subscribe (filterNotificationByTopic topic)
    (fun notif => [ConsoleLog (fst notif) topic (Notification.message (snd notif))]).

(** ** Runs of the program

    A run draws identifiers from the generator [v4] and appends its
    effects to the trace. An [async] action either completes or rejects
    with an [Error]; a rejection ends the action where it is thrown. *)

Record world : Type := mkWorld {
  uuids : nat;              (** identifiers drawn so far *)
  trace : list effect       (** effects so far, oldest first *)
}.

Inductive completion (A : Type) : Type :=
| Normal (value : A)
| Throw (message : string).
Arguments Normal {A}.
Arguments Throw {A}.

Definition M (A : Type) : Type := world -> completion A * world.

Definition ret {A} (a : A) : M A := fun w => (Normal a, w).

Definition bind {A B} (m : M A) (k : A -> M B) : M B :=
  fun w =>
    match m w with
    | (Normal a, w') => k a w'
    | (Throw message, w') => (Throw message, w')
    end.

Definition throw {A} (message : string) : M A := fun w => (Throw message, w).

Definition perform (e : effect) : M unit :=
  fun w => (Normal tt, mkWorld (uuids w) (trace w ++ [e])).

Notation "x <- m ;; k" := (bind m (fun x => k))
  (at level 61, m at next level, right associativity).
Notation "m ;;; k" := (bind m (fun _ => k))
  (at level 61, right associativity).

(** ToBoolean of a value that is a Number or [undefined]. *)
Definition truthy (v : option number) : bool :=
  match v with
  | Some x => Number.ToBoolean x
  | None => false
  end.

Definition dquote : string := String (ascii_of_nat 34) EmptyString.

(** [program.request]: the commander program object has no property of
    that name. *)
Definition program_request : option string := None.

(** What the surroundings of the program answer during a run. *)
Record environment : Type := mkEnvironment {
  (** the identifiers [v4()] returns, in the order of the calls *)
  uuid : nat -> string;
  (** what the promise of [getDeviceAtPosition$(position)] resolves to: a
      device or [undefined] *)
  deviceAtPosition : number -> option Device.t;
  (** Number::toString, for the template literal of the error message *)
  Number_toString : number -> string
}.

Section Cli.

Variable env : environment.

Definition v4 : M string :=
  fun w => (Normal (uuid env (uuids w)), mkWorld (S (uuids w)) (trace w)).

(** [await motionMasterClient.getDeviceAtPosition$(position).toPromise()];
    the promise is taken to resolve. *)
Definition awaitDeviceAtPosition (position : number) : M (option Device.t) :=
  perform (Call (getDeviceAtPosition position)) ;;;
  ret (deviceAtPosition env position).

Definition getCommandDeviceAddress (command : Command.t) : M (option number) :=
  if truthy (Command.deviceAddress command) then
    ret (Command.deviceAddress command)
  else if Number.isInteger (Command.devicePosition command) then
    device <- awaitDeviceAtPosition (Command.devicePosition command) ;;
    match device with
    | Some d => ret (Some (Device.deviceAddress d))
    | None =>
        throw ("There is no device at position "
               ++ Number_toString env (Command.devicePosition command))%string
    end
  else ret None.

(** [exit] defaults to [true]. *)
Definition exitOnMessageReceived (messageId : string) (exit : option bool) : M unit :=
  let exit := match exit with Some b => b | None => true end in
  perform (SubscribeMessage messageId exit).

Definition request_action (type : string) (args : list string) (cmd : Command.t)
  : M unit :=
  deviceAddress <- getCommandDeviceAddress cmd ;;
  messageId <- v4 ;;
  exitOnMessageReceived messageId None ;;;
  if String.eqb type "GetSystemVersion" then
    perform (Call (requestGetSystemVersion messageId))
  else if String.eqb type "GetDeviceInfo" then
    perform (Call (requestGetDeviceInfo messageId))
  else if String.eqb type "GetDeviceParameterInfo" then
    perform (Call (requestGetDeviceParameterInfo deviceAddress messageId))
  else if String.eqb type "GetDeviceParameterValues" then
    let parameters := map paramToIndexAndSubindex args in
    perform (Call (requestGetDeviceParameterValues deviceAddress parameters messageId))
  else if String.eqb type "GetDeviceFileList" then
    perform (Call (requestGetDeviceFileList deviceAddress))
  else if String.eqb type "GetDeviceLog" then
    perform (Call (requestGetDeviceLog deviceAddress))
  else
    throw ("Request " ++ dquote ++ ToString program_request ++ dquote
           ++ " doesn't exist")%string.

Definition upload_action (params : list string) (cmd : Command.t) : M unit :=
  deviceAddress <- getCommandDeviceAddress cmd ;;
  let parameters := map paramToIndexAndSubindex params in
  messageId <- v4 ;;
  exitOnMessageReceived messageId None ;;;
  perform (Call (requestGetDeviceParameterValues deviceAddress parameters messageId)).

Definition download_action (paramValues : list string) (cmd : Command.t) : M unit :=
  deviceAddress <- getCommandDeviceAddress cmd ;;
  let parameters := map paramValueToIndexAndSubindex paramValues in
  messageId <- v4 ;;
  exitOnMessageReceived messageId None ;;;
  perform (Call (requestSetDeviceParameterValues deviceAddress parameters messageId)).

Definition monitor_action (topic : string) (params : list string) (cmd : Command.t)
  : M unit :=
  deviceAddress <- getCommandDeviceAddress cmd ;;
  perform (SubscribeNotification topic) ;;;
  let interval := Command.interval cmd in
  let parameters := map paramToIndexAndSubindex params in
  perform (Call (startMonitoringDeviceParameterValues interval topic parameters
                   deviceAddress)).

(** The command surface. *)
Inductive cli_command : Type :=
| request (type : string) (args : list string) (cmd : Command.t)
| upload (params : list string) (cmd : Command.t)
| download (paramValues : list string) (cmd : Command.t)
| monitor (topic : string) (params : list string) (cmd : Command.t).

Definition action (c : cli_command) : M unit :=
  match c with
  | request type args cmd => request_action type args cmd
  | upload params cmd => upload_action params cmd
  | download paramValues cmd => download_action paramValues cmd
  | monitor topic params cmd => monitor_action topic params cmd
  end.

Definition options (c : cli_command) : Command.t :=
  match c with
  | request _ _ cmd | upload _ cmd | download _ cmd | monitor _ _ cmd => cmd
  end.

(** The effects of a run of [m] from [w], without those before it. *)
Definition effects {A} (m : M A) (w : world) : list effect :=
  skipn (List.length (trace w)) (trace (snd (m w))).

End Cli.

(** ** The outgoing path, [cli.ts] lines 72-82

    Every buffer the client hands to [output] is decoded for the log and
    sent on the server socket. [decodeMotionMasterMessage] and the
    rendering [util.inspect(message.toJSON(), inspectOptions)] belong to
    modules outside the program text and are parameters. *)

Definition Buffer : Type := list Byte.byte.

Module Outgoing.
(** A decoded message, as far as the program looks into it: the request
    member, and in it the presence of a pingSystem member. *)
Record Request : Type := mkRequest { pingSystem : bool }.
Record t : Type := mk { request : option Request; body : string }.
End Outgoing.

Inductive output_effect : Type :=
| Debug (text : string)
| Send (buffer : Buffer).

Section Output.

Variable decodeMotionMasterMessage : Buffer -> Outgoing.t.
Variable inspect : Outgoing.t -> string.

(** [message && message.request && message.request.pingSystem]; a
    decoded message is an object, hence truthy. *)
Definition isPingSystem (message : Outgoing.t) : bool :=
  match Outgoing.request message with
  | Some r => Outgoing.pingSystem r
  | None => false
  end.

(** The observer of [output], lines 73-82. *)
Definition output_next (buffer : Buffer) : list output_effect :=
  let message := decodeMotionMasterMessage buffer in
  (if negb (isPingSystem message)
   then [Debug (inspect (decodeMotionMasterMessage buffer))]
   else [])
  ++ [Send buffer].

Definition output_observer : Rx.operator Buffer output_effect :=
  Rx.mk tt (fun _ buffer => (tt, output_next buffer)).

End Output.

(** * Properties *)

(** ** Strings and digits *)

Fixpoint contains (c : ascii) (s : string) : bool :=
  match s with
  | EmptyString => false
  | String x rest => Ascii.eqb x c || contains c rest
  end.

(** Text made of radix-[R] digits only; [digitText]: and at least one. *)
Fixpoint allDigits (R : Z) (s : string) : bool :=
  match s with
  | EmptyString => true
  | String c rest =>
      match radixDigit R c with
      | Some _ => allDigits R rest
      | None => false
      end
  end.

Definition digitText (R : Z) (s : string) : bool :=
  match s with
  | EmptyString => false
  | String _ _ => allDigits R s
  end.

(** The number a digit text denotes, by the weight of each position. *)
Fixpoint positional (R : Z) (ds : list Z) : Z :=
  match ds with
  | [] => 0
  | d :: rest => d * R ^ Z.of_nat (List.length rest) + positional R rest
  end.

Fixpoint digitsOf (R : Z) (s : string) : list Z :=
  match s with
  | EmptyString => []
  | String c rest =>
      match radixDigit R c with
      | Some d => d :: digitsOf R rest
      | None => []
      end
  end.

Definition denotes (R : Z) (s : string) : Z := positional R (digitsOf R s).

(** A parameter string as the command line documents it: hexadecimal
    digits, a colon, decimal digits. *)
Definition wellFormedParam (param : string) : bool :=
  match split ":" param with
  | [indexStr; subindexStr] => digitText 16 indexStr && digitText 10 subindexStr
  | _ => false
  end.

(** The lookup of the device at the position of the options. *)
Definition lookup_of (cmd : Command.t) : effect :=
  Call (getDeviceAtPosition (Command.devicePosition cmd)).

(** The position lookups among some effects. *)
Definition lookups (t : list effect) : nat :=
  List.length (List.filter (fun e => match e with Call c => isLookup c | _ => false end) t).

(** The device addresses given to the calls among some effects. *)
Definition deviceAddresses (t : list effect) : list (option number) :=
  flat_map (fun e => match e with
                     | Call c => match deviceAddressOf c with
                                 | Some a => [a]
                                 | None => []
                                 end
                     | _ => []
                     end) t.

(** The correlation identifiers given to the request calls among some
    effects; [None] for a request call given none. *)
Definition requestMessageIds (t : list effect) : list (option string) :=
  flat_map (fun e => match e with
                     | Call c => if isLookup c then [] else [messageIdOf c]
                     | _ => []
                     end) t.

(** No request among [t] comes before the first effect that satisfies
    [mark]. *)
Fixpoint requestsFollow (mark : effect -> bool) (t : list effect) : bool :=
  match t with
  | [] => true
  | e :: rest => negb (isRequest e) && (mark e || requestsFollow mark rest)
  end.

Definition isSubscribeMessage (messageId : string) (e : effect) : bool :=
  match e with
  | SubscribeMessage m true => String.eqb m messageId
  | _ => false
  end.

Definition isSubscribeNotification (topic : string) (e : effect) : bool :=
  match e with
  | SubscribeNotification t => String.eqb t topic
  | _ => false
  end.

(** The commands that wait for the reply to their request. *)
Definition isCorrelated (c : cli_command) : bool :=
  match c with
  | request _ _ _ | upload _ _ | download _ _ => true
  | monitor _ _ _ => false
  end.

(** A generator, devices and a Number::toString to run examples with: the
    identifiers are [A], [B], ...; position 0 holds the device of address
    7 and no other position holds one; integral Numbers below [2^53] print
    in decimal. *)
Definition sample_uuid (n : nat) : string :=
  String (ascii_of_nat (65 + n)) EmptyString.

Definition sample_devices (position : number) : option Device.t :=
  match Number.to_Z position with
  | Some 0 => Some (Device.mk (Number.of_Z 7 false))
  | _ => None
  end.

Definition sample_toString (x : number) : string :=
  match Number.to_Z x with
  | Some z => NilZero.string_of_int (Z.to_int z)
  | None => "NaN"
  end.

Definition sample : environment :=
  mkEnvironment sample_uuid sample_devices sample_toString.

(** ** Vocabulary for the option texts and the outcomes of a run *)

Definition startsWithDigit (R : Z) (s : string) : bool :=
  match s with
  | String c _ => match radixDigit R c with Some _ => true | None => false end
  | EmptyString => false
  end.

(** The request types the [switch] of [request] has a case for. *)
Definition knownRequestType (type : string) : bool :=
  existsb (String.eqb type)
    ["GetSystemVersion"; "GetDeviceInfo"; "GetDeviceParameterInfo";
     "GetDeviceParameterValues"; "GetDeviceFileList"; "GetDeviceLog"].

Definition unknownRequest (c : cli_command) : bool :=
  match c with
  | request type _ _ => negb (knownRequestType type)
  | _ => false
  end.

(** The commands whose request call is written with the identifier. *)
Definition passesMessageId (c : cli_command) : bool :=
  match c with
  | request type _ _ =>
      existsb (String.eqb type)
        ["GetSystemVersion"; "GetDeviceInfo"; "GetDeviceParameterInfo";
         "GetDeviceParameterValues"]
  | upload _ _ | download _ _ => true
  | monitor _ _ _ => false
  end.

(** The position is looked up and holds no device. *)
Definition noDeviceFound (env : environment) (cmd : Command.t) : bool :=
  negb (truthy (Command.deviceAddress cmd))
  && Number.isInteger (Command.devicePosition cmd)
  && match deviceAtPosition env (Command.devicePosition cmd) with
     | None => true
     | Some _ => false
     end.

Definition noDeviceError (env : environment) (cmd : Command.t) : string :=
  ("There is no device at position "
   ++ Number_toString env (Command.devicePosition cmd))%string.

Definition unknownRequestError : string :=
  ("Request " ++ dquote ++ ToString program_request ++ dquote
   ++ " doesn't exist")%string.

(** The subscriptions among some effects. *)
Definition subscriptionsIn (t : list effect) : nat :=
  List.length
    (List.filter (fun e => match e with
                           | SubscribeMessage _ _ | SubscribeNotification _ => true
                           | Call _ => false
                           end) t).

(** The buffers sent and the texts logged among the effects of the
    outgoing path. *)
Definition sent (t : list output_effect) : list Buffer :=
  flat_map (fun e => match e with Send b => [b] | Debug _ => [] end) t.

Definition logged (t : list output_effect) : list string :=
  flat_map (fun e => match e with Debug text => [text] | Send _ => [] end) t.

Lemma split_without sep s :
  contains sep s = false -> split sep s = [s].
Proof.
  induction s as [|c s IH]; simpl; [reflexivity|].
  intros H. apply orb_false_elim in H. destruct H as [Hc Hs].
  rewrite Hc, (IH Hs). reflexivity.
Qed.

Lemma split_at_separator sep a b :
  contains sep a = false ->
  split sep (a ++ String sep b)%string = a :: split sep b.
Proof.
  induction a as [|c a IH]; simpl.
  - intros _. rewrite Ascii.eqb_refl. reflexivity.
  - intros H. apply orb_false_elim in H. destruct H as [Hc Ha].
    rewrite Hc, (IH Ha). reflexivity.
Qed.

Lemma split_two sep a b :
  contains sep a = false -> contains sep b = false ->
  split sep (a ++ String sep b)%string = [a; b].
Proof.
  intros Ha Hb. rewrite (split_at_separator _ _ _ Ha), (split_without _ _ Hb).
  reflexivity.
Qed.

Lemma split_first sep s : exists piece pieces, split sep s = piece :: pieces.
Proof.
  induction s as [|c s [p [ps IH]]]; simpl; [eauto|].
  destruct (Ascii.eqb c sep); [eauto|]. rewrite IH. eauto.
Qed.

Lemma digit_not_whitespace c d : digitValue c = Some d -> isWhiteSpace c = false.
Proof.
  unfold digitValue, isWhiteSpace.
  set (n := Z.of_nat (nat_of_ascii c)).
  destruct (Z.leb_spec 48 n), (Z.leb_spec n 57), (Z.leb_spec 97 n),
    (Z.leb_spec n 122), (Z.leb_spec 65 n), (Z.leb_spec n 90),
    (Z.leb_spec 9 n), (Z.leb_spec n 13), (Z.eqb_spec n 32), (Z.eqb_spec n 160);
    simpl; intros; try reflexivity; try discriminate; lia.
Qed.

Lemma radixDigit_digitValue R c d : radixDigit R c = Some d -> exists d', digitValue c = Some d'.
Proof.
  unfold radixDigit. destruct (digitValue c); [eauto | discriminate].
Qed.

Lemma digit_not_char R c d (x : ascii) :
  radixDigit R c = Some d -> radixDigit R x = None -> Ascii.eqb c x = false.
Proof.
  intros Hc Hx. destruct (Ascii.eqb_spec c x); [subst; congruence | reflexivity].
Qed.

Lemma trimStart_digit R c d s :
  radixDigit R c = Some d -> trimStart (String c s) = String c s.
Proof.
  intros H. destruct (radixDigit_digitValue _ _ _ H) as [d' Hd].
  simpl. rewrite (digit_not_whitespace _ _ Hd). reflexivity.
Qed.

Lemma stripSign_digit R c d s :
  radixDigit R c = Some d -> stripSign (String c s) = (false, String c s).
Proof.
  intros H. destruct (radixDigit_digitValue _ _ _ H) as [d' Hd].
  unfold stripSign.
  destruct (Ascii.eqb_spec c "-"); [subst; discriminate|].
  destruct (Ascii.eqb_spec c "+"); [subst; discriminate|].
  reflexivity.
Qed.

Lemma spanDigits_allDigits R s :
  allDigits R s = true -> fst (spanDigits R s) = digitsOf R s.
Proof.
  induction s as [|c s IH]; simpl; [reflexivity|].
  destruct (radixDigit R c); [|discriminate].
  intros H. specialize (IH H). destruct (spanDigits R s). simpl in *. congruence.
Qed.

Lemma horner_positional R ds acc :
  fold_left (fun a d => a * R + d) ds acc
  = acc * R ^ Z.of_nat (List.length ds) + positional R ds.
Proof.
  revert acc. induction ds as [|d ds IH]; intros acc; simpl fold_left.
  - simpl. lia.
  - rewrite IH. cbn [positional List.length].
    rewrite Nat2Z.inj_succ, Z.pow_succ_r by lia. ring.
Qed.

Lemma mathInt_positional R ds : mathInt R ds = positional R ds.
Proof. unfold mathInt. rewrite horner_positional. lia. Qed.

Lemma digits_number R c s :
  allDigits R (String c s) = true ->
  match fst (spanDigits R (String c s)) with
  | [] => Number.NaN
  | digits => Number.of_Z (cond_Zopp false (mathInt R digits)) false
  end = Number.of_Z (denotes R (String c s)) false.
Proof.
  intros Hall. rewrite (spanDigits_allDigits _ _ Hall).
  unfold denotes. rewrite <- mathInt_positional.
  simpl in Hall. cbn [digitsOf].
  destruct (radixDigit R c); [reflexivity | discriminate].
Qed.

(** On a digit text [parseInt] has nothing to trim or strip and reads the
    whole text. *)
Lemma parseInt_digitText_16 s :
  digitText 16 s = true ->
  parseInt (Some s) 16 = Number.of_Z (denotes 16 s) false.
Proof.
  destruct s as [|c s]; [discriminate|]. unfold digitText. intros Hall.
  pose proof Hall as Hc. simpl in Hc.
  destruct (radixDigit 16 c) as [d|] eqn:Hd; [|discriminate].
  unfold parseInt. cbn [ToString].
  rewrite (trimStart_digit _ _ _ _ Hd), (stripSign_digit _ _ _ _ Hd).
  assert (Hx : strip0x (String c s) = None).
  { unfold strip0x.
    destruct c as [[] [] [] [] [] [] [] []]; try reflexivity.
    destruct s as [|c' s]; [reflexivity|].
    simpl in Hc. destruct (radixDigit 16 c') as [d'|] eqn:Hd'; [|discriminate].
    rewrite (digit_not_char 16 c' d' "x" Hd' eq_refl).
    rewrite (digit_not_char 16 c' d' "X" Hd' eq_refl). reflexivity. }
  change (negb (16 =? 0) && ((16 <? 2) || (36 <? 16))) with false.
  change ((16 =? 0) || (16 =? 16)) with true.
  cbv beta iota. rewrite Hx.
  apply digits_number. exact Hall.
Qed.

Lemma parseInt_digitText_10 s :
  digitText 10 s = true ->
  parseInt (Some s) 10 = Number.of_Z (denotes 10 s) false.
Proof.
  destruct s as [|c s]; [discriminate|]. unfold digitText. intros Hall.
  pose proof Hall as Hc. simpl in Hc.
  destruct (radixDigit 10 c) as [d|] eqn:Hd; [|discriminate].
  unfold parseInt. cbn [ToString].
  rewrite (trimStart_digit _ _ _ _ Hd), (stripSign_digit _ _ _ _ Hd).
  change (negb (10 =? 0) && ((10 <? 2) || (36 <? 10))) with false.
  change ((10 =? 0) || (10 =? 16)) with false.
  cbv beta iota.
  apply digits_number. exact Hall.
Qed.

Lemma contains_append c a b :
  contains c (a ++ b)%string = contains c a || contains c b.
Proof.
  induction a as [|x a IH]; simpl; [reflexivity|].
  rewrite IH. apply orb_assoc.
Qed.

Lemma append_assoc (a b c : string) :
  ((a ++ b) ++ c = a ++ (b ++ c))%string.
Proof. induction a as [|x a IH]; simpl; [reflexivity | now rewrite IH]. Qed.

Lemma paramToIndexAndSubindex_pieces indexStr subindexStr :
  contains ":" indexStr = false -> contains ":" subindexStr = false ->
  paramToIndexAndSubindex (indexStr ++ ":" ++ subindexStr)%string
  = ParameterAddress.mk (parseInt (Some indexStr) 16)
                        (parseInt (Some subindexStr) 10).
Proof.
  intros Hi Hs. unfold paramToIndexAndSubindex.
  change (":" ++ subindexStr)%string with (String ":" subindexStr).
  rewrite (split_two _ _ _ Hi Hs). reflexivity.
Qed.

(** ** Numbers from integers are never [NaN] *)

Lemma iter_pos_invariant {A} (P : A -> Prop) (f : A -> A) :
  (forall x, P x -> P (f x)) -> forall n x, P x -> P (iter_pos f n x).
Proof.
  intros Hf. induction n as [n IH|n IH|]; intros x Hx; simpl; auto.
Qed.

Lemma shr_1_nonneg mrs : 0 <= shr_m mrs -> 0 <= shr_m (shr_1 mrs).
Proof.
  destruct mrs as [m r s]. simpl.
  destruct m as [|[p|p|]|[p|p|]]; simpl; lia.
Qed.

Lemma shr_nonneg mrs e n : 0 <= shr_m mrs -> 0 <= shr_m (fst (shr mrs e n)).
Proof.
  intros H. unfold shr. destruct n; simpl; auto.
  apply (iter_pos_invariant (fun x => 0 <= shr_m x)); auto using shr_1_nonneg.
Qed.

Lemma shr_fexp_nonneg p em m e l :
  0 <= m -> 0 <= shr_m (fst (shr_fexp p em m e l)).
Proof.
  intros H. unfold shr_fexp. apply shr_nonneg.
  destruct l as [|[]]; simpl; exact H.
Qed.

Lemma round_nearest_even_nonneg m l : 0 <= m -> 0 <= round_nearest_even m l.
Proof.
  intros H. destruct l as [|[]]; simpl; try destruct (Z.even m); lia.
Qed.

Lemma binary_round_aux_not_NaN p em sx mx ex lx :
  0 <= mx -> Number.isNaN (binary_round_aux p em sx mx ex lx) = false.
Proof.
  intros H. unfold binary_round_aux.
  pose proof (shr_fexp_nonneg p em mx ex lx H) as H1.
  destruct (shr_fexp p em mx ex lx) as [mrs' e']. simpl in H1.
  pose proof (shr_fexp_nonneg p em _ e' loc_Exact
                (round_nearest_even_nonneg _ (loc_of_shr_record mrs') H1)) as H2.
  destruct (shr_fexp p em (round_nearest_even (shr_m mrs') (loc_of_shr_record mrs'))
              e' loc_Exact) as [mrs'' e'']. simpl in H2.
  destruct (shr_m mrs'') as [|q|q]; [reflexivity | | lia].
  destruct (e'' <=? em - p); reflexivity.
Qed.

Lemma of_Z_not_NaN z negative : Number.isNaN (Number.of_Z z negative) = false.
Proof.
  unfold Number.of_Z, binary_normalize, binary_round.
  destruct z as [|m|m]; [reflexivity | |];
    destruct (shl_align m 0 _) as [mz ez];
    apply binary_round_aux_not_NaN; lia.
Qed.

(** ** Integers below [2^53] are Numbers, exactly *)

Lemma digitValue_nonneg c d : digitValue c = Some d -> 0 <= d.
Proof.
  unfold digitValue. set (n := Z.of_nat (nat_of_ascii c)).
  destruct (Z.leb_spec 48 n), (Z.leb_spec n 57), (Z.leb_spec 97 n),
    (Z.leb_spec n 122), (Z.leb_spec 65 n), (Z.leb_spec n 90);
    cbn; intros E; inversion E; lia.
Qed.

Lemma positional_nonneg R ds :
  0 <= R -> Forall (fun d => 0 <= d) ds -> 0 <= positional R ds.
Proof.
  intros HR. induction 1 as [|d ds Hd _ IH]; cbn [positional]; [lia|].
  assert (0 <= R ^ Z.of_nat (List.length ds)) by (apply Z.pow_nonneg; lia).
  nia.
Qed.

Lemma digitsOf_nonneg R s : Forall (fun d => 0 <= d) (digitsOf R s).
Proof.
  induction s as [|c s IH]; cbn [digitsOf]; [constructor|].
  unfold radixDigit. destruct (digitValue c) as [d|] eqn:E; [|constructor].
  destruct (d <? R); constructor; [eapply digitValue_nonneg; eauto | exact IH].
Qed.

Lemma denotes_nonneg R s : 0 <= R -> 0 <= denotes R s.
Proof. intros HR. apply positional_nonneg; [exact HR | apply digitsOf_nonneg]. Qed.


Lemma digits2_pos_lower m : 2 ^ (Zpos (digits2_pos m) - 1) <= Zpos m.
Proof.
  induction m as [m IH|m IH|]; cbn [digits2_pos].
  - rewrite Pos2Z.inj_succ. replace (Z.succ (Zpos (digits2_pos m)) - 1) with (Z.succ (Zpos (digits2_pos m) - 1)) by lia.
    rewrite Z.pow_succ_r by lia. lia.
  - rewrite Pos2Z.inj_succ. replace (Z.succ (Zpos (digits2_pos m)) - 1) with (Z.succ (Zpos (digits2_pos m) - 1)) by lia.
    rewrite Z.pow_succ_r by lia. lia.
  - simpl. lia.
Qed.

Lemma digits2_pos_safe m : Zpos m < 2 ^ 53 -> Zpos (digits2_pos m) <= 53.
Proof.
  intros H. pose proof (digits2_pos_lower m) as L.
  destruct (Z_le_gt_dec (Zpos (digits2_pos m)) 53) as [|G]; [assumption|exfalso].
  assert (2 ^ 53 <= 2 ^ (Zpos (digits2_pos m) - 1)) by (apply Z.pow_le_mono_r; lia).
  lia.
Qed.

Lemma iter_xO_value m k : Zpos (Pos.iter xO m k) = Zpos m * 2 ^ Zpos k.
Proof.
  induction k as [|k IH] using Pos.peano_ind.
  - simpl. lia.
  - rewrite Pos.iter_succ, Pos2Z.inj_xO, IH, Pos2Z.inj_succ, Z.pow_succ_r by lia. ring.
Qed.

Lemma iter_xO_digits m k :
  Zpos (digits2_pos (Pos.iter xO m k)) = Zpos (digits2_pos m) + Zpos k.
Proof.
  induction k as [|k IH] using Pos.peano_ind.
  - simpl. lia.
  - rewrite Pos.iter_succ. cbn [digits2_pos]. rewrite Pos2Z.inj_succ, IH. lia.
Qed.

Lemma binary_round_aux_canonical s mz ez :
  Zpos (digits2_pos mz) = 53 -> -52 <= ez <= 0 ->
  binary_round_aux 53 1024 s (Zpos mz) ez loc_Exact = S754_finite s mz ez.
Proof.
  intros Hd He.
  assert (F : fexp 53 1024 (Zdigits2 (Zpos mz) + ez) - ez = 0).
  { unfold fexp, emin. cbn [Zdigits2]. rewrite Hd. lia. }
  unfold binary_round_aux, shr_fexp. rewrite F. cbn [shr shr_record_of_loc shr_m loc_of_shr_record round_nearest_even].
  rewrite F. cbn [shr shr_m].
  destruct (Z.leb_spec ez (1024 - 53)); [reflexivity | lia].
Qed.

Lemma binary_round_safe s m :
  Zpos m < 2 ^ 53 ->
  exists mz ez, binary_round 53 1024 s m 0 = S754_finite s mz ez
                /\ -52 <= ez <= 0 /\ Zpos mz = Zpos m * 2 ^ (- ez).
Proof.
  intros H. pose proof (digits2_pos_safe m H) as D.
  assert (1 <= Zpos (digits2_pos m)) by lia.
  unfold binary_round.
  assert (F : fexp 53 1024 (Zpos (digits2_pos m) + 0) = Zpos (digits2_pos m) - 53)
    by (unfold fexp, emin; lia).
  rewrite F. unfold shl_align.
  destruct (Zpos (digits2_pos m) - 53 - 0) as [|k|k] eqn:E; try lia.
  - exists m, 0. split; [|split; [lia|simpl; lia]].
    apply binary_round_aux_canonical; lia.
  - exists (Pos.iter xO m k), (Zpos (digits2_pos m) - 53).
    split; [|split; [lia|]].
    + apply binary_round_aux_canonical; [rewrite iter_xO_digits|]; lia.
    + rewrite iter_xO_value. f_equal. f_equal. lia.
Qed.

Lemma of_Z_exact z negative :
  Z.abs z < 2 ^ 53 -> Number.to_Z (Number.of_Z z negative) = Some z.
Proof.
  intros H. unfold Number.of_Z, binary_normalize, Number.prec, Number.emax.
  destruct z as [|m|m]; [reflexivity| |].
  - destruct (binary_round_safe false m H) as [mz [ez [-> [He Hm]]]].
    unfold Number.to_Z. cbn [cond_Zopp].
    destruct (Z.leb_spec 0 ez).
    + replace ez with 0 in * by lia. simpl in Hm. f_equal. lia.
    + rewrite Hm, Z.mod_mul, Z.eqb_refl, Z.div_mul by lia. reflexivity.
  - destruct (binary_round_safe true m H) as [mz [ez [-> [He Hm]]]].
    unfold Number.to_Z. cbn [cond_Zopp].
    destruct (Z.leb_spec 0 ez).
    + replace ez with 0 in * by lia. simpl in Hm. f_equal. lia.
    + rewrite Hm, Z.mod_mul, Z.eqb_refl, Z.div_mul by lia. reflexivity.
Qed.

(** ** The parameter parsers *)

(** C4. For a parameter string [index:subindex],
    paramToIndexAndSubindex returns the pair whose index is [parseInt] of
    the text before the colon in radix 16 and whose subindex is [parseInt]
    of the text after it in radix 10. When the index text is made of
    hexadecimal digits the index is the Number for the integer they denote
    in base 16, that very integer when it is below [2^53]; when the
    subindex text is made of decimal digits the subindex is the Number for
    the integer they denote in base 10, that very integer when it is below
    [2^53]. *)
Theorem paramToIndexAndSubindex_hex_index_decimal_subindex
    (indexStr subindexStr : string) :
  contains ":" indexStr = false ->
  contains ":" subindexStr = false ->
  let address := paramToIndexAndSubindex (indexStr ++ ":" ++ subindexStr)%string in
  address = ParameterAddress.mk (parseInt (Some indexStr) 16)
                                (parseInt (Some subindexStr) 10)
  /\ (digitText 16 indexStr = true ->
      ParameterAddress.index address = Number.of_Z (denotes 16 indexStr) false
      /\ (denotes 16 indexStr < 2 ^ 53 ->
          Number.to_Z (ParameterAddress.index address) = Some (denotes 16 indexStr)))
  /\ (digitText 10 subindexStr = true ->
      ParameterAddress.subindex address = Number.of_Z (denotes 10 subindexStr) false
      /\ (denotes 10 subindexStr < 2 ^ 53 ->
          Number.to_Z (ParameterAddress.subindex address)
          = Some (denotes 10 subindexStr))).
Proof.
  intros Hi Hs address. subst address.
  rewrite (paramToIndexAndSubindex_pieces _ _ Hi Hs).
  cbn [ParameterAddress.index ParameterAddress.subindex].
  split; [reflexivity|]. split; intros H.
  - rewrite (parseInt_digitText_16 _ H). split; [reflexivity|]. intros B.
    apply of_Z_exact. pose proof (denotes_nonneg 16 indexStr). lia.
  - rewrite (parseInt_digitText_10 _ H). split; [reflexivity|]. intros B.
    apply of_Z_exact. pose proof (denotes_nonneg 10 subindexStr). lia.
Qed.

Lemma paramToIndexAndSubindex_hex_index_decimal_subindex_witness :
  paramToIndexAndSubindex "2030:12"
  = ParameterAddress.mk (Number.of_Z 8240 false) (Number.of_Z 12 false)
  /\ Number.to_Z (ParameterAddress.index (paramToIndexAndSubindex "2030:12"))
     = Some (2 * 16 ^ 3 + 0 * 16 ^ 2 + 3 * 16 ^ 1 + 0)
  /\ Number.to_Z (ParameterAddress.subindex (paramToIndexAndSubindex "2030:12"))
     = Some (1 * 10 ^ 1 + 2).
Proof.
  destruct (paramToIndexAndSubindex_hex_index_decimal_subindex "2030" "12"
              eq_refl eq_refl) as [H [Hi Hs]].
  split; [exact H|].
  split; [exact (proj2 (Hi eq_refl) eq_refl) | exact (proj2 (Hs eq_refl) eq_refl)].
Defined.

(** C8, as the program has it. For a parameter value string
    [index:subindex=value], paramValueToIndexAndSubindex returns a record
    with the five fields index, subindex, intValue, uintValue and
    floatValue: index and subindex as paramToIndexAndSubindex parses them
    from the text before [=], and each of intValue, uintValue and
    floatValue holding the one Number [parseFloat] gives for the text
    after [=], with no conversion to an integer. *)
Theorem paramValueToIndexAndSubindex_three_values
    (indexStr subindexStr valueStr : string) :
  contains ":" indexStr = false -> contains "=" indexStr = false ->
  contains ":" subindexStr = false -> contains "=" subindexStr = false ->
  contains "=" valueStr = false ->
  paramValueToIndexAndSubindex
    (indexStr ++ ":" ++ subindexStr ++ "=" ++ valueStr)%string
  = ParameterValue.mk (parseInt (Some indexStr) 16)
                      (parseInt (Some subindexStr) 10)
                      (parseFloat (Some valueStr))
                      (parseFloat (Some valueStr))
                      (parseFloat (Some valueStr)).
Proof.
  intros Hic Hie Hsc Hse Hv. unfold paramValueToIndexAndSubindex.
  replace (indexStr ++ ":" ++ subindexStr ++ "=" ++ valueStr)%string
    with ((indexStr ++ ":" ++ subindexStr) ++ String "=" valueStr)%string
    by (rewrite !append_assoc; reflexivity).
  rewrite split_two; [| |exact Hv].
  - cbn [element0 element1 hd nth_error].
    rewrite (paramToIndexAndSubindex_pieces _ _ Hic Hsc). reflexivity.
  - rewrite !contains_append, Hie, Hse. reflexivity.
Qed.

Lemma paramValueToIndexAndSubindex_three_values_witness :
  paramValueToIndexAndSubindex "2030:1=-1.5"
  = ParameterValue.mk (Number.of_Z 8240 false) (Number.of_Z 1 false)
      (Number.of_decimal true 15 (-1)) (Number.of_decimal true 15 (-1))
      (Number.of_decimal true 15 (-1)).
Proof.
  exact (paramValueToIndexAndSubindex_three_values "2030" "1" "-1.5"
           eq_refl eq_refl eq_refl eq_refl eq_refl).
Defined.

(** C8 as stated fails. For [2030:1=-1.5] the fields intValue and
    uintValue hold -1.5, which is no integer, and uintValue is negative;
    for [2030:1=-5] uintValue holds the negative integer -5. *)
Lemma intValue_and_uintValue_are_not_integers :
  ParameterValue.intValue (paramValueToIndexAndSubindex "2030:1=-1.5")
  = Number.of_decimal true 15 (-1)
  /\ ParameterValue.uintValue (paramValueToIndexAndSubindex "2030:1=-1.5")
     = Number.of_decimal true 15 (-1)
  /\ Number.of_decimal true 15 (-1) = S754_finite true 6755399441055744 (-52)
  /\ Number.isInteger (ParameterValue.intValue (paramValueToIndexAndSubindex "2030:1=-1.5"))
     = false
  /\ Number.isInteger (ParameterValue.uintValue (paramValueToIndexAndSubindex "2030:1=-1.5"))
     = false
  /\ Number.to_Z (ParameterValue.uintValue (paramValueToIndexAndSubindex "2030:1=-5"))
     = Some (-5).
Proof. repeat split; reflexivity. Qed.

(** ** Runs of the commands *)

Lemma skipn_length_app {A} (l l' : list A) : skipn (List.length l) (l ++ l') = l'.
Proof. induction l as [|x l IH]; simpl; [reflexivity | exact IH]. Qed.

Lemma ToBoolean_false_iff (x : number) :
  Number.ToBoolean x = false <-> (exists s, x = S754_zero s) \/ x = Number.NaN.
Proof.
  split.
  - destruct x; simpl; intros H; try discriminate; eauto.
  - intros [[s ->] | ->]; reflexivity.
Qed.

Ltac unfold_run :=
  unfold action, request_action, upload_action, download_action,
    monitor_action, getCommandDeviceAddress, awaitDeviceAtPosition,
    exitOnMessageReceived, v4, bind, ret, throw, perform in *.

(** Follow the run through the tests it makes. *)
Ltac run_cases :=
  repeat match goal with
    | |- context [if String.eqb ?a ?b then _ else _] => destruct (String.eqb a b)
    | |- context [match deviceAtPosition ?e ?p with _ => _ end] =>
        destruct (deviceAtPosition e p) eqn:?
    | |- context [if truthy ?a then _ else _] => destruct (truthy a) eqn:?
    | |- context [if Number.isInteger ?a then _ else _] =>
        destruct (Number.isInteger a) eqn:?
    end; cbn [fst snd trace uuids].

(** The effects of the run, without the trace it started from. *)
Ltac new_effects := rewrite <- ?app_assoc, ?skipn_length_app, ?skipn_all.

Section Runs.

Variable env : environment.

Lemma getCommandDeviceAddress_explicit cmd w :
  truthy (Command.deviceAddress cmd) = true ->
  getCommandDeviceAddress env cmd w = (Normal (Command.deviceAddress cmd), w).
Proof. intros H. unfold getCommandDeviceAddress. rewrite H. reflexivity. Qed.

Lemma getCommandDeviceAddress_found cmd w d :
  truthy (Command.deviceAddress cmd) = false ->
  Number.isInteger (Command.devicePosition cmd) = true ->
  deviceAtPosition env (Command.devicePosition cmd) = Some d ->
  getCommandDeviceAddress env cmd w
  = (Normal (Some (Device.deviceAddress d)),
     mkWorld (uuids w) (trace w ++ [lookup_of cmd])).
Proof.
  intros Ht Hi Hd. unfold_run. rewrite Ht, Hi. cbn. rewrite Hd. reflexivity.
Qed.

Lemma getCommandDeviceAddress_missing cmd w :
  truthy (Command.deviceAddress cmd) = false ->
  Number.isInteger (Command.devicePosition cmd) = true ->
  deviceAtPosition env (Command.devicePosition cmd) = None ->
  getCommandDeviceAddress env cmd w
  = (Throw ("There is no device at position "
            ++ Number_toString env (Command.devicePosition cmd))%string,
     mkWorld (uuids w) (trace w ++ [lookup_of cmd])).
Proof.
  intros Ht Hi Hd. unfold_run. rewrite Ht, Hi. cbn. rewrite Hd. reflexivity.
Qed.

Lemma getCommandDeviceAddress_undefined cmd w :
  truthy (Command.deviceAddress cmd) = false ->
  Number.isInteger (Command.devicePosition cmd) = false ->
  getCommandDeviceAddress env cmd w = (Normal None, w).
Proof. intros Ht Hi. unfold_run. rewrite Ht, Hi. reflexivity. Qed.

(** C3. A command run without a device address option, whose position
    lookup is made and finds no device, rejects with the error
    [There is no device at position <position>]; the run has made the one
    lookup and nothing else: no identifier drawn, no subscription, no
    request, no second lookup. *)
Theorem no_device_at_position_aborts (c : cli_command) (w : world) :
  Command.deviceAddress (options c) = None ->
  Number.isInteger (Command.devicePosition (options c)) = true ->
  deviceAtPosition env (Command.devicePosition (options c)) = None ->
  action env c w
  = (Throw ("There is no device at position "
            ++ Number_toString env (Command.devicePosition (options c)))%string,
     mkWorld (uuids w) (trace w ++ [lookup_of (options c)])).
Proof.
  intros Ha Hi Hd.
  assert (Ht : truthy (Command.deviceAddress (options c)) = false)
    by (rewrite Ha; reflexivity).
  pose proof (getCommandDeviceAddress_missing _ w Ht Hi Hd) as H.
  destruct c; cbn [action options] in *;
    unfold request_action, upload_action, download_action, monitor_action, bind;
    rewrite H; reflexivity.
Qed.

(** The effects of a command once the device address is resolved. *)
Lemma deviceAddresses_after_resolution (c : cli_command) (w w1 : world)
    (a : option number) (l : list effect) :
  getCommandDeviceAddress env (options c) w = (Normal a, w1) ->
  trace w1 = trace w ++ l ->
  exists l',
    effects (action env c) w = l ++ l'
    /\ lookups l' = 0%nat
    /\ Forall (fun x => x = a) (deviceAddresses l')
    /\ ((forall type args cmd, c <> request type args cmd) ->
        deviceAddresses l' = [a]).
Proof.
  intros H Hl.
  destruct c; cbn [action options] in *; unfold effects;
    unfold request_action, upload_action, download_action, monitor_action, bind;
    rewrite H; unfold_run; run_cases;
    rewrite Hl, <- ?app_assoc, skipn_length_app;
    eexists; (split; [reflexivity|]);
    cbn; repeat split; auto; intros Hc; exfalso; eapply Hc; reflexivity.
Qed.

(** C9. When the device address option holds a falsy Number (0 of either
    sign, or NaN), getCommandDeviceAddress does not return it: with an
    integer device position it makes the position lookup and answers from
    it; with a device position that is not an integer (NaN) it returns
    [undefined] without any error or lookup, and the requests of the
    command are then given an [undefined] device address. *)
Theorem falsy_deviceAddress_taken_as_absent (c : cli_command) (a : number)
    (w : world) :
  Command.deviceAddress (options c) = Some a ->
  Number.ToBoolean a = false ->
  (Number.isInteger (Command.devicePosition (options c)) = true ->
   getCommandDeviceAddress env (options c) w
   = (match deviceAtPosition env (Command.devicePosition (options c)) with
      | Some d => Normal (Some (Device.deviceAddress d))
      | None => Throw ("There is no device at position "
                       ++ Number_toString env (Command.devicePosition (options c)))%string
      end,
      mkWorld (uuids w) (trace w ++ [lookup_of (options c)])))
  /\ (Number.isInteger (Command.devicePosition (options c)) = false ->
      getCommandDeviceAddress env (options c) w = (Normal None, w)
      /\ lookups (effects (action env c) w) = 0%nat
      /\ Forall (fun x => x = None) (deviceAddresses (effects (action env c) w))
      /\ ((forall type args cmd, c <> request type args cmd) ->
          deviceAddresses (effects (action env c) w) = [None])).
Proof.
  intros Ha Hf.
  assert (Ht : truthy (Command.deviceAddress (options c)) = false)
    by (rewrite Ha; exact Hf).
  split; intros Hi.
  - destruct (deviceAtPosition env (Command.devicePosition (options c))) eqn:Hd.
    + now apply getCommandDeviceAddress_found.
    + now apply getCommandDeviceAddress_missing.
  - pose proof (getCommandDeviceAddress_undefined _ w Ht Hi) as H.
    split; [exact H|].
    destruct (deviceAddresses_after_resolution c w w None [] H) as [l' [E [L [F U]]]];
      [now rewrite app_nil_r|].
    rewrite E. cbn [app]. auto.
Qed.

(** C7, as the program has it. A command given a truthy device address
    option (not 0, not NaN) makes no lookup and gives that address to its
    calls. A command given no device address option, whose device position
    is an integer and holds a device, starts with the one lookup of that
    position, makes no other, and gives the address of the device found to
    its calls. *)
Theorem device_address_resolution (c : cli_command) (w : world) :
  (truthy (Command.deviceAddress (options c)) = true ->
   lookups (effects (action env c) w) = 0%nat
   /\ Forall (fun x => x = Command.deviceAddress (options c))
             (deviceAddresses (effects (action env c) w)))
  /\ (Command.deviceAddress (options c) = None ->
      Number.isInteger (Command.devicePosition (options c)) = true ->
      forall d, deviceAtPosition env (Command.devicePosition (options c)) = Some d ->
      exists rest,
        effects (action env c) w = lookup_of (options c) :: rest
        /\ lookups rest = 0%nat
        /\ Forall (fun x => x = Some (Device.deviceAddress d)) (deviceAddresses rest)).
Proof.
  split.
  - intros Ht.
    pose proof (getCommandDeviceAddress_explicit _ w Ht) as H.
    destruct (deviceAddresses_after_resolution c w w _ [] H) as [l' [E [L [F U]]]];
      [now rewrite app_nil_r|].
    rewrite E. cbn [app]. auto.
  - intros Ha Hi d Hd.
    assert (Ht : truthy (Command.deviceAddress (options c)) = false)
      by (rewrite Ha; reflexivity).
    pose proof (getCommandDeviceAddress_found _ w d Ht Hi Hd) as H.
    destruct (deviceAddresses_after_resolution c w _ _ [lookup_of (options c)] H)
      as [l' [E [L [F U]]]]; [reflexivity|].
    exists l'. rewrite E. auto.
Qed.

Lemma requestsFollow_sound mark t :
  requestsFollow mark t = true ->
  forall pre e post, t = pre ++ e :: post -> isRequest e = true ->
  exists s, In s pre /\ mark s = true.
Proof.
  induction t as [|x t IH]; intros H pre e post E He.
  - destruct pre; discriminate E.
  - cbn [requestsFollow] in H. apply andb_true_iff in H. destruct H as [Hx H].
    destruct pre as [|p pre]; cbn [app] in E; injection E as -> ->.
    + rewrite He in Hx. discriminate Hx.
    + destruct (mark p) eqn:Hm.
      * exists p. split; [left; reflexivity | exact Hm].
      * cbn [orb] in H. destruct (IH H pre e post eq_refl He) as [s [Hs Hms]].
        exists s. split; [right; exact Hs | exact Hms].
Qed.

Lemma isSubscribeMessage_eq messageId e :
  isSubscribeMessage messageId e = true -> e = SubscribeMessage messageId true.
Proof.
  destruct e as [| m [] |]; cbn; try discriminate.
  intros H. apply String.eqb_eq in H. now subst.
Qed.

Lemma isSubscribeNotification_eq topic e :
  isSubscribeNotification topic e = true -> e = SubscribeNotification topic.
Proof.
  destruct e; cbn; try discriminate.
  intros H. apply String.eqb_eq in H. now subst.
Qed.

Lemma correlated_requests_follow_registration (c : cli_command) (w : world) :
  isCorrelated c = true ->
  requestsFollow (isSubscribeMessage (uuid env (uuids w)))
    (effects (action env c) w) = true.
Proof.
  intros Hc. destruct c; try discriminate Hc; cbn [action]; unfold effects;
    unfold_run; run_cases; new_effects; cbn; rewrite ?String.eqb_refl; reflexivity.
Qed.

(** C2. In a run of [request], [upload] or [download], every request
    call on the client comes after the subscription that
    exitOnMessageReceived installs for the identifier drawn in that run:
    whatever precedes a request call in the run contains this
    subscription. *)
Theorem registration_precedes_request (c : cli_command) (w : world)
    (pre post : list effect) (e : effect) :
  isCorrelated c = true ->
  effects (action env c) w = pre ++ e :: post ->
  isRequest e = true ->
  In (SubscribeMessage (uuid env (uuids w)) true) pre.
Proof.
  intros Hc E He.
  destruct (requestsFollow_sound _ _ (correlated_requests_follow_registration c w Hc)
              pre e post E He) as [s [Hs Hm]].
  apply isSubscribeMessage_eq in Hm. now subst.
Qed.

Lemma monitoring_follows_subscription topic params cmd (w : world) :
  requestsFollow (isSubscribeNotification topic)
    (effects (action env (monitor topic params cmd)) w) = true.
Proof.
  cbn [action]; unfold effects; unfold_run; run_cases;
    new_effects; cbn; rewrite ?String.eqb_refl; reflexivity.
Qed.

Lemma monitor_observer_logs topic (notifs : list (Z * Notification.t)) :
  Rx.run (monitor_observer topic) notifs
  = map (fun n => if String.eqb (Notification.topic (snd n)) topic
                  then [ConsoleLog (fst n) topic (Notification.message (snd n))]
                  else []) notifs.
Proof.
  unfold Rx.run. generalize (Rx.init (monitor_observer topic)).
  induction notifs as [|n notifs IH]; intros s; [reflexivity|].
  cbn [Rx.run_from map]. cbn.
  destruct (String.eqb (Notification.topic (snd n)) topic); cbn;
    f_equal; apply IH.
Qed.

(** C10. In a run of [monitor], whatever precedes the call of
    startMonitoringDeviceParameterValues contains the subscription to the
    notifications of the topic, so the subscriber is in place when
    monitoring starts; and the subscriber logs every notification of that
    topic pushed to it, each once, and no other. *)
Theorem monitor_subscribes_before_monitoring (topic : string)
    (params : list string) (cmd : Command.t) (w : world) :
  (forall pre post interval topic' parameters deviceAddress,
     effects (action env (monitor topic params cmd)) w
     = pre ++ Call (startMonitoringDeviceParameterValues interval topic'
                      parameters deviceAddress) :: post ->
     In (SubscribeNotification topic) pre)
  /\ (forall notifs : list (Z * Notification.t),
        Rx.run (monitor_observer topic) notifs
        = map (fun n => if String.eqb (Notification.topic (snd n)) topic
                        then [ConsoleLog (fst n) topic
                                (Notification.message (snd n))]
                        else []) notifs).
Proof.
  split; [|apply monitor_observer_logs].
  intros pre post interval topic' parameters deviceAddress E.
  destruct (requestsFollow_sound _ _ (monitoring_follows_subscription topic params cmd w)
              pre _ post E eq_refl) as [s [Hs Hm]].
  apply isSubscribeNotification_eq in Hm. now subst.
Qed.

(** The request types whose call is given the identifier: the request
    calls of the run all carry the identifier registered in that run. *)
Lemma correlated_requests_carry_registered_id (c : cli_command) (w : world) :
  isCorrelated c = true ->
  (forall args cmd, c <> request "GetDeviceFileList" args cmd) ->
  (forall args cmd, c <> request "GetDeviceLog" args cmd) ->
  Forall (fun m => m = Some (uuid env (uuids w)))
         (requestMessageIds (effects (action env c) w)).
Proof.
  intros Hc Hf Hl. destruct c as [type args cmd| | |]; try discriminate Hc;
    cbn [action]; unfold effects; unfold_run.
  - destruct (String.eqb_spec type "GetDeviceFileList") as [->|Nf];
      [exfalso; eapply Hf; reflexivity|].
    destruct (String.eqb_spec type "GetDeviceLog") as [->|Nl];
      [exfalso; eapply Hl; reflexivity|].
    apply String.eqb_neq in Nf, Nl.
    destruct (String.eqb type "GetSystemVersion") eqn:E1;
    destruct (String.eqb type "GetDeviceInfo") eqn:E2;
    destruct (String.eqb type "GetDeviceParameterInfo") eqn:E3;
    destruct (String.eqb type "GetDeviceParameterValues") eqn:E4;
    rewrite ?Nf, ?Nl; run_cases; new_effects; cbn; auto.
  - run_cases; new_effects; cbn; auto.
  - run_cases; new_effects; cbn; auto.
Qed.

(** The two request types whose call is not given the identifier. *)
Lemma file_list_and_log_requests_carry_no_id type args cmd (w : world) :
  type = "GetDeviceFileList" \/ type = "GetDeviceLog" ->
  Forall (fun m => m = None)
         (requestMessageIds (effects (action env (request type args cmd)) w)).
Proof.
  intros [-> | ->]; cbn [action]; unfold effects; unfold_run; cbn [String.eqb Ascii.eqb Bool.eqb];
    run_cases; new_effects; cbn; auto.
Qed.

End Runs.

Lemma no_device_at_position_aborts_witness :
  action sample (upload ["2030:1"] (commandOptions None (Some "3"))) (mkWorld 1 [])
  = (Throw "There is no device at position 3",
     mkWorld 1 [Call (getDeviceAtPosition (Number.of_Z 3 false))]).
Proof.
  exact (no_device_at_position_aborts sample
           (upload ["2030:1"] (commandOptions None (Some "3"))) (mkWorld 1 [])
           eq_refl eq_refl eq_refl).
Defined.

Lemma falsy_deviceAddress_taken_as_absent_witness :
  getCommandDeviceAddress sample (commandOptions (Some "0") None) (mkWorld 1 [])
  = (Normal (Some (Number.of_Z 7 false)),
     mkWorld 1 [Call (getDeviceAtPosition (Number.of_Z 0 false))])
  /\ deviceAddresses
       (effects (action sample (upload ["2030:1"] (commandOptions (Some "0") (Some "abc"))))
                (mkWorld 1 []))
     = [None].
Proof.
  split.
  - exact (proj1 (falsy_deviceAddress_taken_as_absent sample
                    (upload ["2030:1"] (commandOptions (Some "0") None))
                    (Number.of_Z 0 false) (mkWorld 1 []) eq_refl eq_refl) eq_refl).
  - apply (proj2 (falsy_deviceAddress_taken_as_absent sample
                    (upload ["2030:1"] (commandOptions (Some "0") (Some "abc")))
                    (Number.of_Z 0 false) (mkWorld 1 []) eq_refl eq_refl) eq_refl).
    intros type args cmd H. discriminate H.
Defined.

Lemma device_address_resolution_witness :
  (lookups (effects (action sample (upload ["2030:1"] (commandOptions (Some "5") None)))
                    (mkWorld 1 [])) = 0%nat
   /\ Forall (fun x => x = Some (Number.of_Z 5 false))
        (deviceAddresses
           (effects (action sample (upload ["2030:1"] (commandOptions (Some "5") None)))
                    (mkWorld 1 []))))
  /\ exists rest,
       effects (action sample (upload ["2030:1"] (commandOptions None None))) (mkWorld 1 [])
       = Call (getDeviceAtPosition (Number.of_Z 0 false)) :: rest
       /\ lookups rest = 0%nat
       /\ Forall (fun x => x = Some (Number.of_Z 7 false)) (deviceAddresses rest).
Proof.
  split.
  - exact (proj1 (device_address_resolution sample
                    (upload ["2030:1"] (commandOptions (Some "5") None)) (mkWorld 1 []))
                 eq_refl).
  - exact (proj2 (device_address_resolution sample
                    (upload ["2030:1"] (commandOptions None None)) (mkWorld 1 []))
                 eq_refl eq_refl (Device.mk (Number.of_Z 7 false)) eq_refl).
Defined.

(** C7 as stated fails. With no device address option and a device
    position that is not an integer ([-p abc]), the address is not
    resolved by a round trip: getCommandDeviceAddress makes no lookup, and
    the run of [upload] holds no lookup at all. *)
Lemma non_integer_position_is_not_looked_up :
  Command.deviceAddress (commandOptions None (Some "abc")) = None
  /\ Command.devicePosition (commandOptions None (Some "abc")) = Number.NaN
  /\ Number.isInteger (Command.devicePosition (commandOptions None (Some "abc"))) = false
  /\ snd (getCommandDeviceAddress sample (commandOptions None (Some "abc")) (mkWorld 1 []))
     = mkWorld 1 []
  /\ lookups (effects (action sample (upload ["2030:1"] (commandOptions None (Some "abc"))))
                      (mkWorld 1 [])) = 0%nat
  /\ lookups (effects (action sample (upload ["2030:1"] (commandOptions None (Some "abc"))))
                      (mkWorld 1 [])) <> 1%nat.
Proof. repeat split; try reflexivity. vm_compute. discriminate. Qed.

Lemma registration_precedes_request_witness :
  In (SubscribeMessage "B" true)
     [Call (getDeviceAtPosition (Number.of_Z 0 false)); SubscribeMessage "B" true].
Proof.
  exact (registration_precedes_request sample
           (download ["2030:1=4"] (commandOptions None None)) (mkWorld 1 [])
           [Call (getDeviceAtPosition (Number.of_Z 0 false)); SubscribeMessage "B" true]
           []
           (Call (requestSetDeviceParameterValues (Some (Number.of_Z 7 false))
                    [paramValueToIndexAndSubindex "2030:1=4"] "B"))
           eq_refl eq_refl eq_refl).
Defined.

Lemma monitor_subscribes_before_monitoring_witness :
  In (SubscribeNotification "velocity") [SubscribeNotification "velocity"].
Proof.
  exact (proj1 (monitor_subscribes_before_monitoring sample "velocity" ["2030:1"]
                  (monitorOptions (Some "5") None None) (mkWorld 1 []))
           [SubscribeNotification "velocity"] []
           (Some (Number.of_Z 1000000 false)) "velocity"
           [paramToIndexAndSubindex "2030:1"] (Some (Number.of_Z 5 false))
           eq_refl).
Defined.

(** C1, at [request GetDeviceFileList -d 5] and [request GetDeviceLog
    -d 5]: the identifier [B] drawn in the run is registered for the exit,
    and the request call that follows is not given it (nor any
    identifier); at the sibling [request GetDeviceParameterInfo -d 5] the
    call is given [B]. *)
Theorem request_GetDeviceFileList_without_messageId :
  effects (action sample (request "GetDeviceFileList" [] (commandOptions (Some "5") None)))
          (mkWorld 1 [])
  = [SubscribeMessage "B" true;
     Call (requestGetDeviceFileList (Some (Number.of_Z 5 false)))]
  /\ requestMessageIds
       (effects (action sample (request "GetDeviceFileList" [] (commandOptions (Some "5") None)))
                (mkWorld 1 []))
     = [None]
  /\ effects (action sample (request "GetDeviceLog" [] (commandOptions (Some "5") None)))
             (mkWorld 1 [])
     = [SubscribeMessage "B" true;
        Call (requestGetDeviceLog (Some (Number.of_Z 5 false)))]
  /\ effects (action sample (request "GetDeviceParameterInfo" []
                               (commandOptions (Some "5") None)))
             (mkWorld 1 [])
     = [SubscribeMessage "B" true;
        Call (requestGetDeviceParameterInfo (Some (Number.of_Z 5 false)) "B")].
Proof.
  split; [reflexivity|]. split; [reflexivity|]. split.
  - vm_compute. reflexivity.
  - vm_compute. reflexivity.
Qed.

(** ** The exit on the first matching message *)

Lemma exit_observer_other messageId exit completed (x : MotionMasterMessage.t) :
  String.eqb (MotionMasterMessage.id x) messageId = false ->
  Rx.next (exitOnMessageReceived_observer messageId exit) (tt, completed) x
  = ((tt, completed), []).
Proof. intros H. cbn. rewrite H. reflexivity. Qed.

Lemma exit_observer_match messageId exit (x : MotionMasterMessage.t) :
  String.eqb (MotionMasterMessage.id x) messageId = true ->
  Rx.next (exitOnMessageReceived_observer messageId exit) (tt, false) x
  = ((tt, true), if exit then [ProcessExit] else []).
Proof. intros H. cbn. rewrite H. cbn. now rewrite app_nil_r. Qed.

Lemma exit_observer_completed messageId exit (x : MotionMasterMessage.t) :
  Rx.next (exitOnMessageReceived_observer messageId exit) (tt, true) x
  = ((tt, true), []).
Proof.
  cbn. destruct (String.eqb (MotionMasterMessage.id x) messageId); reflexivity.
Qed.

Lemma exit_observer_silent_once_completed messageId exit msgs :
  Rx.run_from (exitOnMessageReceived_observer messageId exit) (tt, true) msgs
  = map (fun _ => []) msgs.
Proof.
  induction msgs as [|x msgs IH]; [reflexivity|].
  cbn [Rx.run_from map]. rewrite exit_observer_completed. now rewrite IH.
Qed.

Lemma exit_observer_silent_on_others messageId exit completed msgs :
  Forall (fun x => MotionMasterMessage.id x <> messageId) msgs ->
  Rx.run_from (exitOnMessageReceived_observer messageId exit) (tt, completed) msgs
  = map (fun _ => []) msgs.
Proof.
  induction 1 as [|x msgs Hx _ IH]; [reflexivity|].
  cbn [Rx.run_from map].
  rewrite exit_observer_other by now apply String.eqb_neq.
  now rewrite IH.
Qed.

(** C6. exitOnMessageReceived called with a message id (and the default
    [exit]) installs the subscription for that id, whose observer signals
    the process exit when the first message with that id arrives and at no
    other message: not at the messages with other ids before it, not at
    any message after it, whatever its id; if no message has the id, it
    never signals. *)
Theorem exit_on_first_matching_message (messageId : string) :
  (forall w : world,
     exitOnMessageReceived messageId None w
     = (Normal tt, mkWorld (uuids w) (trace w ++ [SubscribeMessage messageId true])))
  /\ (forall (before after : list MotionMasterMessage.t) (m : MotionMasterMessage.t),
        Forall (fun x => MotionMasterMessage.id x <> messageId) before ->
        MotionMasterMessage.id m = messageId ->
        Rx.run (exitOnMessageReceived_observer messageId true) (before ++ m :: after)
        = map (fun _ => []) before ++ [ProcessExit] :: map (fun _ => []) after)
  /\ (forall msgs : list MotionMasterMessage.t,
        Forall (fun x => MotionMasterMessage.id x <> messageId) msgs ->
        Rx.run (exitOnMessageReceived_observer messageId true) msgs
        = map (fun _ => []) msgs).
Proof.
  split; [reflexivity|]. split.
  - intros before after m Hb Hm. unfold Rx.run.
    change (Rx.init (exitOnMessageReceived_observer messageId true)) with (tt, false).
    induction Hb as [|x before Hx _ IH]; cbn [app map Rx.run_from].
    + rewrite exit_observer_match by (rewrite Hm; apply String.eqb_refl).
      now rewrite exit_observer_silent_once_completed.
    + rewrite exit_observer_other by now apply String.eqb_neq.
      f_equal. exact IH.
  - intros msgs H. now apply exit_observer_silent_on_others.
Qed.

Lemma exit_on_first_matching_message_witness :
  Rx.run (exitOnMessageReceived_observer "B" true)
    [MotionMasterMessage.mk "A" "pong"; MotionMasterMessage.mk "B" "version";
     MotionMasterMessage.mk "B" "version again"; MotionMasterMessage.mk "C" "info"]
  = [[]; [ProcessExit]; []; []]
  /\ Rx.run (exitOnMessageReceived_observer "B" true)
       [MotionMasterMessage.mk "A" "pong"; MotionMasterMessage.mk "C" "info"]
     = [[]; []].
Proof.
  split.
  - apply (proj1 (proj2 (exit_on_first_matching_message "B"))
             [MotionMasterMessage.mk "A" "pong"]
             [MotionMasterMessage.mk "B" "version again"; MotionMasterMessage.mk "C" "info"]
             (MotionMasterMessage.mk "B" "version")).
    + constructor; [discriminate | constructor].
    + reflexivity.
  - apply (proj2 (proj2 (exit_on_first_matching_message "B"))).
    repeat constructor; discriminate.
Defined.

(** ** Malformed parameter strings *)

(** C5 as stated fails: the malformed strings [1g:2] (index text that is
    not hexadecimal) and [zz] (no colon, no digit) are parsed without any
    error, and [upload 1g:2] issues its request with the index 1 and the
    subindex 2. *)
Lemma malformed_param_is_parsed :
  wellFormedParam "1g:2" = false
  /\ paramToIndexAndSubindex "1g:2"
     = ParameterAddress.mk (Number.of_Z 1 false) (Number.of_Z 2 false)
  /\ wellFormedParam "zz" = false
  /\ paramToIndexAndSubindex "zz" = ParameterAddress.mk Number.NaN Number.NaN
  /\ action sample (upload ["1g:2"] (commandOptions (Some "5") None)) (mkWorld 1 [])
     = (Normal tt,
        mkWorld 2
          [SubscribeMessage "B" true;
           Call (requestGetDeviceParameterValues (Some (Number.of_Z 5 false))
                   [ParameterAddress.mk (Number.of_Z 1 false) (Number.of_Z 2 false)]
                   "B")]).
Proof. repeat split; reflexivity. Qed.

Lemma wellFormedParam_pieces param :
  wellFormedParam param = true ->
  exists indexStr subindexStr,
    split ":" param = [indexStr; subindexStr]
    /\ digitText 16 indexStr = true /\ digitText 10 subindexStr = true.
Proof.
  unfold wellFormedParam.
  destruct (split ":" param) as [|i [|d [|x l]]]; try discriminate.
  intros H. apply andb_true_iff in H. eauto.
Qed.

(** C5, as the program has it. Parsing never fails: whatever the
    parameter strings, [upload] and [download] given a truthy device
    address complete and issue their request with the parsed records. For
    a well-formed parameter string (hexadecimal digits, a colon, decimal
    digits) index and subindex are the numbers the digits denote, and not
    NaN. A string without [:] gets the subindex NaN and a string without
    [=] gets the value NaN, in place of an error. *)
Theorem parsing_never_fails :
  (forall env params cmd w,
     truthy (Command.deviceAddress cmd) = true ->
     action env (upload params cmd) w
     = (Normal tt,
        mkWorld (S (uuids w))
          (trace w ++ [SubscribeMessage (uuid env (uuids w)) true;
                       Call (requestGetDeviceParameterValues (Command.deviceAddress cmd)
                               (map paramToIndexAndSubindex params)
                               (uuid env (uuids w)))]))
     /\ action env (download params cmd) w
        = (Normal tt,
           mkWorld (S (uuids w))
             (trace w ++ [SubscribeMessage (uuid env (uuids w)) true;
                          Call (requestSetDeviceParameterValues (Command.deviceAddress cmd)
                                  (map paramValueToIndexAndSubindex params)
                                  (uuid env (uuids w)))])))
  /\ (forall param,
        wellFormedParam param = true ->
        exists indexStr subindexStr,
          split ":" param = [indexStr; subindexStr]
          /\ paramToIndexAndSubindex param
             = ParameterAddress.mk (Number.of_Z (denotes 16 indexStr) false)
                                   (Number.of_Z (denotes 10 subindexStr) false)
          /\ Number.isNaN (ParameterAddress.index (paramToIndexAndSubindex param)) = false
          /\ Number.isNaN (ParameterAddress.subindex (paramToIndexAndSubindex param)) = false)
  /\ (forall param,
        contains ":" param = false ->
        ParameterAddress.subindex (paramToIndexAndSubindex param) = Number.NaN)
  /\ (forall paramValue,
        contains "=" paramValue = false ->
        ParameterValue.intValue (paramValueToIndexAndSubindex paramValue) = Number.NaN
        /\ ParameterValue.uintValue (paramValueToIndexAndSubindex paramValue) = Number.NaN
        /\ ParameterValue.floatValue (paramValueToIndexAndSubindex paramValue) = Number.NaN).
Proof.
  split; [|split; [|split]].
  - intros env params cmd w Ht. cbn [action].
    unfold upload_action, download_action, bind.
    rewrite (getCommandDeviceAddress_explicit env cmd w Ht).
    unfold_run. cbn. rewrite <- !app_assoc. split; reflexivity.
  - intros param H.
    destruct (wellFormedParam_pieces _ H) as [i [d [E [Hi Hd]]]].
    exists i, d. split; [exact E|].
    assert (P : paramToIndexAndSubindex param
                = ParameterAddress.mk (Number.of_Z (denotes 16 i) false)
                                      (Number.of_Z (denotes 10 d) false)).
    { unfold paramToIndexAndSubindex. rewrite E. cbn [element0 element1 hd nth_error].
      now rewrite (parseInt_digitText_16 _ Hi), (parseInt_digitText_10 _ Hd). }
    rewrite P. cbn [ParameterAddress.index ParameterAddress.subindex].
    split; [reflexivity|]. split; apply of_Z_not_NaN.
  - intros param H. unfold paramToIndexAndSubindex.
    rewrite (split_without _ _ H). reflexivity.
  - intros paramValue H. unfold paramValueToIndexAndSubindex.
    rewrite (split_without _ _ H). repeat split; reflexivity.
Qed.

Lemma parsing_never_fails_witness :
  action sample (upload ["zz"] (commandOptions (Some "5") None)) (mkWorld 1 [])
  = (Normal tt,
     mkWorld 2
       [SubscribeMessage "B" true;
        Call (requestGetDeviceParameterValues (Some (Number.of_Z 5 false))
                [ParameterAddress.mk Number.NaN Number.NaN] "B")])
  /\ (exists indexStr subindexStr,
        split ":" "2030:12" = [indexStr; subindexStr]
        /\ paramToIndexAndSubindex "2030:12"
           = ParameterAddress.mk (Number.of_Z (denotes 16 indexStr) false)
                                 (Number.of_Z (denotes 10 subindexStr) false)
        /\ Number.isNaN (ParameterAddress.index (paramToIndexAndSubindex "2030:12")) = false
        /\ Number.isNaN (ParameterAddress.subindex (paramToIndexAndSubindex "2030:12")) = false)
  /\ ParameterAddress.subindex (paramToIndexAndSubindex "2030") = Number.NaN
  /\ ParameterValue.floatValue (paramValueToIndexAndSubindex "2030:1") = Number.NaN.
Proof.
  destruct parsing_never_fails as [Hrun [Hwell [Hcolon Hequal]]].
  split; [|split; [|split]].
  - exact (proj1 (Hrun sample ["zz"] (commandOptions (Some "5") None) (mkWorld 1 []) eq_refl)).
  - exact (Hwell "2030:12" eq_refl).
  - exact (Hcolon "2030" eq_refl).
  - exact (proj2 (proj2 (Hequal "2030:1" eq_refl))).
Defined.

(** * Further properties of the program *)

(** ** Option texts and parameter texts *)

Lemma parseInt_radix_10 v :
  parseInt (Some v) 10
  = match fst (spanDigits 10 (snd (stripSign (trimStart v)))) with
    | [] => Number.NaN
    | digits =>
        Number.of_Z (cond_Zopp (fst (stripSign (trimStart v))) (mathInt 10 digits))
                    (fst (stripSign (trimStart v)))
    end.
Proof.
  unfold parseInt. cbn [ToString].
  destruct (stripSign (trimStart v)) as [negative str]. cbn [fst snd].
  change (negb (10 =? 0) && ((10 <? 2) || (36 <? 10))) with false.
  change ((10 =? 0) || (10 =? 16)) with false.
  reflexivity.
Qed.

Lemma spanDigits_empty_iff R s :
  fst (spanDigits R s) = [] <-> startsWithDigit R s = false.
Proof.
  destruct s as [|c s]; cbn [spanDigits startsWithDigit]; [tauto|].
  destruct (radixDigit R c); [|tauto].
  destruct (spanDigits R s). cbn. split; discriminate.
Qed.

Lemma spanDigits_append R d rest :
  allDigits R d = true -> startsWithDigit R rest = false ->
  spanDigits R (d ++ rest)%string = (digitsOf R d, rest).
Proof.
  intros Hd Hr. induction d as [|c d IH]; cbn [append digitsOf].
  - destruct rest as [|x rest]; [reflexivity|].
    cbn [spanDigits startsWithDigit] in *.
    destruct (radixDigit R x); [discriminate | reflexivity].
  - cbn [allDigits] in Hd. cbn [spanDigits].
    destruct (radixDigit R c); [|discriminate].
    rewrite (IH Hd). reflexivity.
Qed.

Lemma digitsOf_nonempty R c s :
  allDigits R (String c s) = true -> digitsOf R (String c s) <> [].
Proof.
  cbn [allDigits digitsOf]. destruct (radixDigit R c); discriminate.
Qed.

(** X1. The value of an option read by parseOptionValueAsInt is NaN
    exactly when its text, after leading white space and one optional
    sign, does not start with a decimal digit. *)
Theorem parseOptionValueAsInt_NaN_iff (value : string) :
  Number.isNaN (parseOptionValueAsInt value)
  = negb (startsWithDigit 10 (snd (stripSign (trimStart value)))).
Proof.
  unfold parseOptionValueAsInt. rewrite parseInt_radix_10.
  destruct (fst (spanDigits 10 (snd (stripSign (trimStart value))))) as [|d ds] eqn:E.
  - apply spanDigits_empty_iff in E. rewrite E. reflexivity.
  - rewrite of_Z_not_NaN.
    destruct (startsWithDigit 10 (snd (stripSign (trimStart value)))) eqn:S;
      [reflexivity|].
    apply spanDigits_empty_iff in S. congruence.
Qed.

(** X2. parseOptionValueAsInt reads the leading decimal digits of an
    option text and ignores whatever follows them: digits followed by text
    that does not start with a digit give the Number for the integer the
    digits denote, and with a minus sign in front its negation. *)
Theorem parseOptionValueAsInt_ignores_trailing_text (digits rest : string) :
  digitText 10 digits = true ->
  startsWithDigit 10 rest = false ->
  parseOptionValueAsInt (digits ++ rest)
  = Number.of_Z (denotes 10 digits) false
  /\ parseOptionValueAsInt ("-" ++ digits ++ rest)
     = Number.of_Z (- denotes 10 digits) true.
Proof.
  intros Hd Hr. destruct digits as [|c d]; [discriminate|].
  unfold digitText in Hd. pose proof Hd as Hc. cbn [allDigits] in Hc.
  destruct (radixDigit 10 c) as [x|] eqn:Hx; [|discriminate].
  unfold parseOptionValueAsInt. rewrite !parseInt_radix_10.
  split.
  - change (String c d ++ rest)%string with (String c (d ++ rest)).
    rewrite (trimStart_digit _ _ _ _ Hx), (stripSign_digit _ _ _ _ Hx).
    cbn [fst snd].
    change (String c (d ++ rest)%string) with (String c d ++ rest)%string.
    rewrite (spanDigits_append _ _ _ Hd Hr). cbn [fst].
    pose proof (digitsOf_nonempty _ _ _ Hd) as N.
    destruct (digitsOf 10 (String c d)) as [|y ys] eqn:E; [congruence|].
    rewrite mathInt_positional. unfold denotes. rewrite E. reflexivity.
  - change ("-" ++ String c d ++ rest)%string with (String "-" (String c d ++ rest)).
    change (trimStart (String "-" (String c d ++ rest)))
      with (String "-" (String c d ++ rest)%string).
    change (stripSign (String "-" (String c d ++ rest)))
      with (true, (String c d ++ rest)%string).
    cbn [fst snd].
    rewrite (spanDigits_append _ _ _ Hd Hr). cbn [fst].
    pose proof (digitsOf_nonempty _ _ _ Hd) as N.
    destruct (digitsOf 10 (String c d)) as [|y ys] eqn:E; [congruence|].
    rewrite mathInt_positional. unfold denotes. rewrite E. reflexivity.
Qed.

Lemma parseOptionValueAsInt_ignores_trailing_text_witness :
  parseOptionValueAsInt "12abc" = Number.of_Z 12 false
  /\ parseOptionValueAsInt "-12abc" = Number.of_Z (-12) true.
Proof.
  exact (parseOptionValueAsInt_ignores_trailing_text "12" "abc" eq_refl eq_refl).
Defined.

Lemma allDigits_excludes R s (x : ascii) :
  allDigits R s = true -> radixDigit R x = None -> contains x s = false.
Proof.
  intros Hs Hx. induction s as [|c s IH]; [reflexivity|].
  cbn [allDigits contains] in *.
  destruct (radixDigit R c) as [d|] eqn:Hc; [|discriminate].
  rewrite (digit_not_char R c d x Hc Hx), (IH Hs). reflexivity.
Qed.

Lemma digitText_allDigits R s : digitText R s = true -> allDigits R s = true.
Proof. destruct s; [discriminate | trivial]. Qed.

Lemma parseInt_hex_prefix h :
  digitText 16 h = true ->
  parseInt (Some ("0x" ++ h)%string) 16 = Number.of_Z (denotes 16 h) false.
Proof.
  intros H. destruct h as [|c s]; [discriminate|].
  unfold parseInt. cbn [ToString].
  change (trimStart ("0x" ++ String c s)) with ("0x" ++ String c s)%string.
  change (stripSign ("0x" ++ String c s)) with (false, ("0x" ++ String c s)%string).
  change (negb (16 =? 0) && ((16 <? 2) || (36 <? 16))) with false.
  change ((16 =? 0) || (16 =? 16)) with true.
  cbv beta iota.
  change (strip0x ("0x" ++ String c s)) with (Some (String c s)).
  cbv beta iota. apply digits_number. exact H.
Qed.

Lemma parseInt_decimal_of_hex_text t :
  parseInt (Some ("0x" ++ t)%string) 10 = Number.of_Z 0 false.
Proof.
  rewrite parseInt_radix_10.
  change (trimStart ("0x" ++ t)) with ("0x" ++ t)%string.
  change (stripSign ("0x" ++ t)) with (false, ("0x" ++ t)%string).
  reflexivity.
Qed.

(** X3. The index of a parameter may carry the hexadecimal prefix: with
    [0x] in front of its hexadecimal digits paramToIndexAndSubindex gives
    the same pair as without, the index being the Number for the integer
    the digits denote. The subindex is read in decimal only: a subindex
    text that starts with [0x] gives the subindex 0. *)
Theorem paramToIndexAndSubindex_hex_prefix (h subindexStr : string) :
  digitText 16 h = true ->
  contains ":" subindexStr = false ->
  paramToIndexAndSubindex ("0x" ++ h ++ ":" ++ subindexStr)
  = paramToIndexAndSubindex (h ++ ":" ++ subindexStr)
  /\ ParameterAddress.index (paramToIndexAndSubindex ("0x" ++ h ++ ":" ++ subindexStr))
     = Number.of_Z (denotes 16 h) false
  /\ ParameterAddress.subindex
       (paramToIndexAndSubindex (h ++ ":" ++ "0x" ++ subindexStr))
     = Number.of_Z 0 false.
Proof.
  intros Hh Hs.
  assert (Hc : contains ":" h = false)
    by (apply (allDigits_excludes 16); [now apply digitText_allDigits | reflexivity]).
  assert (Hx : contains ":" ("0x" ++ h) = false) by exact Hc.
  change ("0x" ++ h ++ ":" ++ subindexStr)%string
    with (("0x" ++ h) ++ ":" ++ subindexStr)%string.
  rewrite (paramToIndexAndSubindex_pieces _ _ Hx Hs).
  rewrite (paramToIndexAndSubindex_pieces _ _ Hc Hs).
  rewrite (parseInt_hex_prefix _ Hh), (parseInt_digitText_16 _ Hh).
  split; [reflexivity|]. split; [reflexivity|].
  assert (Hs' : contains ":" ("0x" ++ subindexStr) = false) by exact Hs.
  rewrite (paramToIndexAndSubindex_pieces _ _ Hc Hs').
  cbn [ParameterAddress.subindex]. apply parseInt_decimal_of_hex_text.
Qed.

Lemma paramToIndexAndSubindex_hex_prefix_witness :
  paramToIndexAndSubindex "0x2030:1" = paramToIndexAndSubindex "2030:1"
  /\ ParameterAddress.index (paramToIndexAndSubindex "0x2030:1")
     = Number.of_Z 8240 false
  /\ ParameterAddress.subindex (paramToIndexAndSubindex "2030:0x1")
     = Number.of_Z 0 false.
Proof.
  exact (paramToIndexAndSubindex_hex_prefix "2030" "1" eq_refl eq_refl).
Defined.

(** X4. Pieces after the second are ignored: a parameter string with a
    second colon parses as the string cut before that colon, and a
    parameter value string with a second [=] as the string cut before that
    [=]. *)
Theorem pieces_after_the_second_are_ignored (a b rest : string) :
  (contains ":" a = false -> contains ":" b = false ->
   paramToIndexAndSubindex (a ++ ":" ++ b ++ ":" ++ rest)
   = paramToIndexAndSubindex (a ++ ":" ++ b))
  /\ (contains "=" a = false -> contains "=" b = false ->
      paramValueToIndexAndSubindex (a ++ "=" ++ b ++ "=" ++ rest)
      = paramValueToIndexAndSubindex (a ++ "=" ++ b)).
Proof.
  split; intros Ha Hb.
  - unfold paramToIndexAndSubindex.
    change (a ++ ":" ++ b ++ ":" ++ rest)%string
      with (a ++ String ":" (b ++ String ":" rest))%string.
    change (a ++ ":" ++ b)%string with (a ++ String ":" b)%string.
    rewrite !(split_at_separator _ _ _ Ha), (split_at_separator _ _ _ Hb),
      (split_without _ _ Hb).
    reflexivity.
  - unfold paramValueToIndexAndSubindex.
    change (a ++ "=" ++ b ++ "=" ++ rest)%string
      with (a ++ String "=" (b ++ String "=" rest))%string.
    change (a ++ "=" ++ b)%string with (a ++ String "=" b)%string.
    rewrite !(split_at_separator _ _ _ Ha), (split_at_separator _ _ _ Hb),
      (split_without _ _ Hb).
    reflexivity.
Qed.

Lemma pieces_after_the_second_are_ignored_witness :
  paramToIndexAndSubindex "2030:1:7" = paramToIndexAndSubindex "2030:1"
  /\ paramValueToIndexAndSubindex "2030:1=5=9" = paramValueToIndexAndSubindex "2030:1=5".
Proof.
  split.
  - exact (proj1 (pieces_after_the_second_are_ignored "2030" "1" "7") eq_refl eq_refl).
  - exact (proj2 (pieces_after_the_second_are_ignored "2030:1" "5" "9") eq_refl eq_refl).
Defined.

(** ** The value of a parameter value string *)

Lemma paramValueToIndexAndSubindex_pieces param valueStr :
  contains "=" param = false -> contains "=" valueStr = false ->
  paramValueToIndexAndSubindex (param ++ "=" ++ valueStr)
  = ParameterValue.mk (ParameterAddress.index (paramToIndexAndSubindex param))
                      (ParameterAddress.subindex (paramToIndexAndSubindex param))
                      (parseFloat (Some valueStr)) (parseFloat (Some valueStr))
                      (parseFloat (Some valueStr)).
Proof.
  intros Hp Hv. unfold paramValueToIndexAndSubindex.
  change (param ++ "=" ++ valueStr)%string with (param ++ String "=" valueStr)%string.
  rewrite (split_two _ _ _ Hp Hv). reflexivity.
Qed.

Lemma parseFloat_of_hex_text t :
  parseFloat (Some ("0x" ++ t)%string) = Number.of_Z 0 false.
Proof.
  unfold parseFloat. cbn [ToString].
  change (trimStart ("0x" ++ t)) with ("0x" ++ t)%string.
  change (stripSign ("0x" ++ t)) with (false, ("0x" ++ t)%string).
  reflexivity.
Qed.

Lemma spanDigits_allDigits_whole R s :
  allDigits R s = true -> spanDigits R s = (digitsOf R s, EmptyString).
Proof.
  induction s as [|c s IH]; cbn [allDigits spanDigits digitsOf]; [reflexivity|].
  destruct (radixDigit R c); [|discriminate].
  intros H. rewrite (IH H). reflexivity.
Qed.

Lemma not_Infinity_digit c s d :
  radixDigit 10 c = Some d -> String.prefix "Infinity" (String c s) = false.
Proof.
  intros H. cbn [String.prefix].
  destruct (ascii_dec "I" c) as [<-|]; [discriminate H | reflexivity].
Qed.

Lemma of_decimal_integer negative m :
  0 <= m ->
  Number.of_decimal negative m 0 = Number.of_Z (cond_Zopp negative m) negative.
Proof.
  intros H. unfold Number.of_decimal.
  destruct m as [|p|p]; [destruct negative; reflexivity | | lia].
  change (0 <=? 0) with true. cbv iota.
  change (10 ^ 0) with 1. rewrite Z.mul_1_r.
  destruct negative; reflexivity.
Qed.

(** [parseFloat] on decimal digits, with or without a minus sign. *)
Lemma parseFloat_digitText (negative : bool) v :
  digitText 10 v = true ->
  parseFloat (Some ((if negative then "-" else "") ++ v)%string)
  = Number.of_Z (cond_Zopp negative (denotes 10 v)) negative.
Proof.
  intros H. destruct v as [|c s]; [discriminate|].
  unfold digitText in H. pose proof H as Hc. cbn [allDigits] in Hc.
  destruct (radixDigit 10 c) as [d|] eqn:Hd; [|discriminate].
  unfold parseFloat. cbn [ToString].
  assert (E : stripSign (trimStart ((if negative then "-" else "") ++ String c s))
              = (negative, String c s)).
  { destruct negative.
    - reflexivity.
    - cbn [append]. rewrite (trimStart_digit _ _ _ _ Hd).
      apply (stripSign_digit _ _ _ _ Hd). }
  rewrite E. rewrite (not_Infinity_digit _ _ _ Hd).
  rewrite (spanDigits_allDigits_whole _ _ H).
  pose proof (digitsOf_nonempty _ _ _ H) as N.
  destruct (digitsOf 10 (String c s)) as [|y ys] eqn:D; [congruence|].
  cbn [exponentPart List.length Z.of_nat]. rewrite app_nil_r.
  change (0 - 0) with 0. rewrite mathInt_positional.
  unfold denotes. rewrite D.
  apply of_decimal_integer.
  rewrite <- D. apply positional_nonneg; [lia | apply digitsOf_nonneg].
Qed.

(** X5. The value of a parameter value string is read in decimal only:
    for [index:subindex=0x...] the three values intValue, uintValue and
    floatValue are 0, whatever follows [0x]; index and subindex are those
    of the parameter. *)
Theorem hexadecimal_value_is_zero (param t : string) :
  contains "=" param = false ->
  contains "=" t = false ->
  paramValueToIndexAndSubindex (param ++ "=" ++ "0x" ++ t)
  = ParameterValue.mk (ParameterAddress.index (paramToIndexAndSubindex param))
                      (ParameterAddress.subindex (paramToIndexAndSubindex param))
                      (Number.of_Z 0 false) (Number.of_Z 0 false) (Number.of_Z 0 false).
Proof.
  intros Hp Ht.
  assert (Ht' : contains "=" ("0x" ++ t) = false) by exact Ht.
  rewrite (paramValueToIndexAndSubindex_pieces _ _ Hp Ht').
  rewrite parseFloat_of_hex_text. reflexivity.
Qed.

Lemma hexadecimal_value_is_zero_witness :
  paramValueToIndexAndSubindex "0x2030:1=0x10"
  = ParameterValue.mk (Number.of_Z 8240 false) (Number.of_Z 1 false)
      (Number.of_Z 0 false) (Number.of_Z 0 false) (Number.of_Z 0 false).
Proof.
  exact (hexadecimal_value_is_zero "0x2030:1" "10" eq_refl eq_refl).
Defined.

(** X6. An integer value is carried as it is written in all three value
    fields, without conversion or range check: for [param=-digits] the
    fields intValue, uintValue and floatValue all hold the Number for the
    negated integer, that very integer when it is below [2^53]; uintValue
    is then negative. *)
Theorem negative_value_in_all_three_fields (param digits : string) :
  contains "=" param = false ->
  digitText 10 digits = true ->
  let value := paramValueToIndexAndSubindex (param ++ "=" ++ "-" ++ digits) in
  ParameterValue.intValue value = Number.of_Z (- denotes 10 digits) true
  /\ ParameterValue.uintValue value = Number.of_Z (- denotes 10 digits) true
  /\ ParameterValue.floatValue value = Number.of_Z (- denotes 10 digits) true
  /\ (denotes 10 digits < 2 ^ 53 ->
      Number.to_Z (ParameterValue.uintValue value) = Some (- denotes 10 digits)).
Proof.
  intros Hp Hd value. subst value.
  assert (Hv : contains "=" ("-" ++ digits) = false).
  { cbn. apply (allDigits_excludes 10); [now apply digitText_allDigits | reflexivity]. }
  rewrite (paramValueToIndexAndSubindex_pieces _ _ Hp Hv).
  cbn [ParameterValue.intValue ParameterValue.uintValue ParameterValue.floatValue].
  rewrite (parseFloat_digitText true _ Hd). cbn [cond_Zopp].
  repeat split. intros B. apply of_Z_exact.
  pose proof (denotes_nonneg 10 digits). lia.
Qed.

Lemma negative_value_in_all_three_fields_witness :
  ParameterValue.uintValue (paramValueToIndexAndSubindex "2030:1=-5")
  = Number.of_Z (-5) true
  /\ Number.to_Z (ParameterValue.uintValue (paramValueToIndexAndSubindex "2030:1=-5"))
     = Some (-5).
Proof.
  destruct (negative_value_in_all_three_fields "2030:1" "5" eq_refl eq_refl)
    as [_ [Hu [_ Hz]]].
  split; [exact Hu | exact (Hz eq_refl)].
Defined.

(** ** The device options of a command *)

Lemma of_Z_truthy z negative :
  z <> 0 -> Z.abs z < 2 ^ 53 -> Number.ToBoolean (Number.of_Z z negative) = true.
Proof.
  intros N B. unfold Number.of_Z, binary_normalize, Number.prec, Number.emax.
  destruct z as [|m|m]; [congruence| |].
  - destruct (binary_round_safe false m B) as [mz [ez [-> _]]]. reflexivity.
  - destruct (binary_round_safe true m B) as [mz [ez [-> _]]]. reflexivity.
Qed.

Lemma to_Z_isInteger x z : Number.to_Z x = Some z -> Number.isInteger x = true.
Proof.
  destruct x as [s|s| |s m e]; cbn; try discriminate; [reflexivity|].
  destruct (0 <=? e); [reflexivity|].
  destruct (Zpos m mod 2 ^ (- e) =? 0); [reflexivity | discriminate].
Qed.

Lemma getCommandDeviceAddress_falsy env cmd w :
  truthy (Command.deviceAddress cmd) = false ->
  getCommandDeviceAddress env cmd w
  = getCommandDeviceAddress env
      (Command.mk None (Command.devicePosition cmd) (Command.interval cmd)) w.
Proof. intros H. unfold getCommandDeviceAddress. rewrite H. reflexivity. Qed.

(** X7. A device address option written as decimal digits for an
    integer from 1 up to [2^53 - 1] is used as it is: getCommandDeviceAddress
    returns the Number of that integer, makes no lookup and changes nothing,
    whatever the device position option. *)
Theorem explicit_address_option_is_used (env : environment) (d : string)
    (p : option string) (w : world) :
  digitText 10 d = true ->
  0 < denotes 10 d < 2 ^ 53 ->
  getCommandDeviceAddress env (commandOptions (Some d) p) w
  = (Normal (Some (Number.of_Z (denotes 10 d) false)), w)
  /\ Number.to_Z (Number.of_Z (denotes 10 d) false) = Some (denotes 10 d).
Proof.
  intros Hd B. split; [|apply of_Z_exact; lia].
  assert (E : Command.deviceAddress (commandOptions (Some d) p)
              = Some (Number.of_Z (denotes 10 d) false)).
  { cbn. unfold parseOptionValueAsInt. now rewrite (parseInt_digitText_10 _ Hd). }
  rewrite getCommandDeviceAddress_explicit; rewrite E; [reflexivity|].
  cbn [truthy]. apply of_Z_truthy; lia.
Qed.

Lemma explicit_address_option_is_used_witness :
  getCommandDeviceAddress sample (commandOptions (Some "42") (Some "abc")) (mkWorld 1 [])
  = (Normal (Some (Number.of_Z 42 false)), mkWorld 1 [])
  /\ Number.to_Z (Number.of_Z 42 false) = Some 42.
Proof.
  apply (explicit_address_option_is_used sample "42" (Some "abc") (mkWorld 1 []) eq_refl).
  split; reflexivity.
Defined.

(** X8. Without a device address option, a device position option
    written as decimal digits for an integer below [2^53] makes
    getCommandDeviceAddress look up exactly that position, once, and
    answer from the lookup: the address of the device found, or the error
    that there is no device at the position. *)
Theorem position_option_is_looked_up (env : environment) (p : string) (w : world) :
  digitText 10 p = true ->
  denotes 10 p < 2 ^ 53 ->
  let position := Number.of_Z (denotes 10 p) false in
  getCommandDeviceAddress env (commandOptions None (Some p)) w
  = (match deviceAtPosition env position with
     | Some device => Normal (Some (Device.deviceAddress device))
     | None => Throw ("There is no device at position "
                      ++ Number_toString env position)%string
     end,
     mkWorld (uuids w) (trace w ++ [Call (getDeviceAtPosition position)]))
  /\ Number.to_Z position = Some (denotes 10 p).
Proof.
  intros Hp B position.
  assert (HZ : Number.to_Z position = Some (denotes 10 p)).
  { apply of_Z_exact. pose proof (denotes_nonneg 10 p). lia. }
  split; [|exact HZ].
  set (cmd := commandOptions None (Some p)).
  assert (E : Command.devicePosition cmd = position).
  { cbn. unfold parseOptionValueAsInt. now rewrite (parseInt_digitText_10 _ Hp). }
  assert (T : truthy (Command.deviceAddress cmd) = false) by reflexivity.
  assert (I : Number.isInteger (Command.devicePosition cmd) = true).
  { rewrite E. exact (to_Z_isInteger _ _ HZ). }
  destruct (deviceAtPosition env position) as [device|] eqn:D.
  - rewrite (getCommandDeviceAddress_found env cmd w device T I);
      [| rewrite E; exact D].
    unfold lookup_of. rewrite E. reflexivity.
  - rewrite (getCommandDeviceAddress_missing env cmd w T I);
      [| rewrite E; exact D].
    unfold lookup_of. rewrite E. reflexivity.
Qed.

Lemma position_option_is_looked_up_witness :
  getCommandDeviceAddress sample (commandOptions None (Some "0")) (mkWorld 1 [])
  = (Normal (Some (Number.of_Z 7 false)),
     mkWorld 1 [Call (getDeviceAtPosition (Number.of_Z 0 false))])
  /\ getCommandDeviceAddress sample (commandOptions None (Some "3")) (mkWorld 1 [])
     = (Throw "There is no device at position 3",
        mkWorld 1 [Call (getDeviceAtPosition (Number.of_Z 3 false))]).
Proof.
  split.
  - exact (proj1 (position_option_is_looked_up sample "0" (mkWorld 1 []) eq_refl eq_refl)).
  - exact (proj1 (position_option_is_looked_up sample "3" (mkWorld 1 []) eq_refl eq_refl)).
Defined.

(** X9. A device address option written in hexadecimal ([-d 0x...]) is
    read as 0 and then counts for nothing: every command runs exactly as
    it does without the option. *)
Theorem hexadecimal_address_option_is_ignored (env : environment)
    (t : string) (p : option string) (w : world) :
  Command.deviceAddress (commandOptions (Some ("0x" ++ t)%string) p)
  = Some (Number.of_Z 0 false)
  /\ (forall type args,
        action env (request type args (commandOptions (Some ("0x" ++ t)%string) p)) w
        = action env (request type args (commandOptions None p)) w)
  /\ (forall params,
        action env (upload params (commandOptions (Some ("0x" ++ t)%string) p)) w
        = action env (upload params (commandOptions None p)) w)
  /\ (forall paramValues,
        action env (download paramValues (commandOptions (Some ("0x" ++ t)%string) p)) w
        = action env (download paramValues (commandOptions None p)) w)
  /\ (forall topic params i,
        action env (monitor topic params (monitorOptions (Some ("0x" ++ t)%string) p i)) w
        = action env (monitor topic params (monitorOptions None p i)) w).
Proof.
  assert (E : parseOptionValueAsInt ("0x" ++ t) = Number.of_Z 0 false)
    by apply parseInt_decimal_of_hex_text.
  split; [unfold commandOptions; cbn [Command.deviceAddress option_map]; now rewrite E|].
  repeat split; intros; cbn [action];
    unfold request_action, upload_action, download_action, monitor_action, bind;
    rewrite getCommandDeviceAddress_falsy
      by (unfold commandOptions, monitorOptions;
          cbn [Command.deviceAddress option_map truthy]; now rewrite E);
    reflexivity.
Qed.

(** ** Outcomes and shape of a run *)

(** X10. How a run ends, for every command and every state of the
    surroundings: it rejects with the no-device error exactly when the
    position is looked up and holds no device; otherwise a [request] of a
    type the switch has no case for rejects with the does-not-exist error;
    every other run completes. *)
Theorem outcome_of_a_run (env : environment) (c : cli_command) (w : world) :
  fst (action env c w)
  = if noDeviceFound env (options c) then Throw (noDeviceError env (options c))
    else if unknownRequest c then Throw unknownRequestError
    else Normal tt.
Proof.
  destruct c; cbn [action options unknownRequest];
    unfold noDeviceFound, noDeviceError, unknownRequestError, knownRequestType;
    cbn [existsb]; unfold_run; run_cases; reflexivity.
Qed.

(** X11. A [request] of a type the switch has no case for, whose device
    address resolves, rejects only after the identifier has been drawn and
    registered for the exit: the run adds the subscription for that
    identifier to what the resolution did and issues no request. The error
    text is the same for every such type. *)
Theorem unknown_request_type_is_registered_then_rejected (env : environment)
    (type : string) (args : list string) (cmd : Command.t) (w : world) :
  knownRequestType type = false ->
  noDeviceFound env cmd = false ->
  action env (request type args cmd) w
  = (Throw unknownRequestError,
     mkWorld (S (uuids w))
       (trace (snd (getCommandDeviceAddress env cmd w))
        ++ [SubscribeMessage (uuid env (uuids w)) true]))
  /\ requestMessageIds (effects (action env (request type args cmd)) w) = [].
Proof.
  unfold knownRequestType, noDeviceFound. cbn [existsb action]. unfold effects.
  unfold_run. intros K N. revert K N. run_cases; intros K N;
    try discriminate K; try discriminate N;
    new_effects; split; reflexivity.
Qed.

Lemma unknown_request_type_is_registered_then_rejected_witness :
  action sample (request "GetDeviceParameterValue" ["2030:1"] (commandOptions None None))
         (mkWorld 1 [])
  = (Throw unknownRequestError,
     mkWorld 2 [Call (getDeviceAtPosition (Number.of_Z 0 false));
                SubscribeMessage "B" true]).
Proof.
  exact (proj1 (unknown_request_type_is_registered_then_rejected sample
                  "GetDeviceParameterValue" ["2030:1"] (commandOptions None None)
                  (mkWorld 1 []) eq_refl eq_refl)).
Defined.

(** X12. What a run never does: whatever the command, the options and
    the surroundings, a run only appends to the trace, and it makes at
    most one position lookup, at most one subscription and at most one
    request, and draws at most one identifier. *)
Theorem at_most_one_of_each (env : environment) (c : cli_command) (w : world) :
  trace (snd (action env c w)) = trace w ++ effects (action env c) w
  /\ (lookups (effects (action env c) w) <= 1)%nat
  /\ (subscriptionsIn (effects (action env c) w) <= 1)%nat
  /\ (List.length (requestMessageIds (effects (action env c) w)) <= 1)%nat
  /\ (uuids w <= uuids (snd (action env c w)) <= S (uuids w))%nat.
Proof.
  destruct c; cbn [action]; unfold effects; unfold_run; run_cases;
    new_effects; rewrite ?app_nil_r; cbn; repeat split; lia.
Qed.

(** X13. [monitor] never waits for a reply: its run draws no identifier
    and installs no exit subscription. *)
Theorem monitor_installs_no_exit (env : environment) (topic : string)
    (params : list string) (cmd : Command.t) (w : world) :
  uuids (snd (action env (monitor topic params cmd) w)) = uuids w
  /\ forall messageId exit,
       ~ In (SubscribeMessage messageId exit)
            (effects (action env (monitor topic params cmd)) w).
Proof.
  cbn [action]; unfold effects; unfold_run; run_cases; new_effects;
    (split; [reflexivity|]); intros messageId exit H; cbn in H;
    intuition discriminate.
Qed.

(** ** Observers *)

Lemma concat_map_nil {A B} (l : list A) :
  List.concat (map (fun _ => @nil B) l) = [].
Proof. induction l as [|x l IH]; [reflexivity | exact IH]. Qed.

Lemma exit_observer_signals messageId exit (msgs : list MotionMasterMessage.t) :
  List.concat (Rx.run_from (exitOnMessageReceived_observer messageId exit) (tt, false) msgs)
  = if exit && existsb (fun m => String.eqb (MotionMasterMessage.id m) messageId) msgs
    then [ProcessExit] else [].
Proof.
  induction msgs as [|x msgs IH]; [destruct exit; reflexivity|].
  cbn [Rx.run_from existsb].
  destruct (String.eqb (MotionMasterMessage.id x) messageId) eqn:E.
  - rewrite (exit_observer_match _ _ _ E). cbn [List.concat orb].
    rewrite exit_observer_silent_once_completed, concat_map_nil, app_nil_r, andb_true_r.
    reflexivity.
  - rewrite (exit_observer_other _ _ _ _ E). cbn [List.concat app orb]. apply IH.
Qed.

(** X14. All the signals of the observer that exitOnMessageReceived
    installs, over any sequence of messages: one process exit if the
    [exit] argument is true and some message has the id, none otherwise.
    With [exit] false the observer never signals. *)
Theorem exit_signals_in_total (messageId : string) (exit : bool)
    (msgs : list MotionMasterMessage.t) :
  List.concat (Rx.run (exitOnMessageReceived_observer messageId exit) msgs)
  = if exit && existsb (fun m => String.eqb (MotionMasterMessage.id m) messageId) msgs
    then [ProcessExit] else [].
Proof. apply exit_observer_signals. Qed.

Lemma sent_app (a b : list output_effect) : sent (a ++ b) = sent a ++ sent b.
Proof. apply flat_map_app. Qed.

Lemma logged_app (a b : list output_effect) : logged (a ++ b) = logged a ++ logged b.
Proof. apply flat_map_app. Qed.

(** X15. The outgoing path sends every buffer it is given, once each
    and in the order given, logged or not; it logs the rendering of every
    message that is not a pingSystem request, once each and in that order,
    and never logs a pingSystem request. *)
Theorem output_sends_all_and_logs_all_but_pings
    (decodeMotionMasterMessage : Buffer -> Outgoing.t)
    (inspect : Outgoing.t -> string) (buffers : list Buffer) :
  sent (List.concat (Rx.run (output_observer decodeMotionMasterMessage inspect) buffers))
  = buffers
  /\ logged (List.concat (Rx.run (output_observer decodeMotionMasterMessage inspect) buffers))
     = map (fun b => inspect (decodeMotionMasterMessage b))
           (List.filter
              (fun b => negb (isPingSystem (decodeMotionMasterMessage b))) buffers).
Proof.
  unfold Rx.run. generalize (Rx.init (output_observer decodeMotionMasterMessage inspect)).
  induction buffers as [|b buffers IH]; intros s; [split; reflexivity|].
  destruct (IH tt) as [IHs IHl].
  cbn [Rx.run_from Rx.next output_observer List.concat List.filter].
  rewrite sent_app, logged_app. unfold output_next.
  destruct (isPingSystem (decodeMotionMasterMessage b)); cbn [negb app map];
    rewrite ?sent_app, ?logged_app; cbn; (split; [f_equal; apply IHs | try f_equal; apply IHl]).
Qed.

(** ** The identifier of the request *)

(** X16. For [upload], [download] and the request types
    GetSystemVersion, GetDeviceInfo, GetDeviceParameterInfo and
    GetDeviceParameterValues, a run whose device resolves ends with the
    exit subscription for the identifier drawn in the run followed by the
    one request call, and that call carries the same identifier. *)
Theorem registered_id_is_the_request_id (env : environment) (c : cli_command)
    (w : world) :
  passesMessageId c = true ->
  noDeviceFound env (options c) = false ->
  requestMessageIds (effects (action env c) w) = [Some (uuid env (uuids w))]
  /\ exists pre call,
       effects (action env c) w
       = pre ++ [SubscribeMessage (uuid env (uuids w)) true; Call call]
       /\ messageIdOf call = Some (uuid env (uuids w))
       /\ requestMessageIds pre = [].
Proof.
  destruct c; cbn [action options passesMessageId existsb];
    unfold noDeviceFound, effects; unfold_run; intros P N; revert P N;
    run_cases; intros P N; try discriminate P; try discriminate N;
    new_effects; (split; [reflexivity|]);
    first [ eexists [], _; cbn [app]; repeat split; reflexivity
          | eexists [_], _; cbn [app]; repeat split; reflexivity ].
Qed.

Lemma registered_id_is_the_request_id_witness :
  requestMessageIds
    (effects (action sample (download ["2030:1=4"] (commandOptions None None)))
             (mkWorld 1 []))
  = [Some "B"].
Proof.
  exact (proj1 (registered_id_is_the_request_id sample
                  (download ["2030:1=4"] (commandOptions None None)) (mkWorld 1 [])
                  eq_refl eq_refl)).
Defined.

Lemma parseOptionValueAsInt_without_digit value :
  startsWithDigit 10 (snd (stripSign (trimStart value))) = false ->
  parseOptionValueAsInt value = Number.NaN.
Proof.
  intros H. unfold parseOptionValueAsInt. rewrite parseInt_radix_10.
  apply spanDigits_empty_iff in H. now rewrite H.
Qed.

(** X17. A device position option whose text, after leading white space
    and one optional sign, does not start with a decimal digit gives no
    device address at all when the device address option is absent:
    getCommandDeviceAddress returns [undefined], without a lookup and
    without an error. *)
Theorem non_numeric_position_gives_undefined (env : environment) (p : string)
    (w : world) :
  startsWithDigit 10 (snd (stripSign (trimStart p))) = false ->
  getCommandDeviceAddress env (commandOptions None (Some p)) w = (Normal None, w).
Proof.
  intros H. apply getCommandDeviceAddress_undefined; [reflexivity|].
  unfold commandOptions. cbn [Command.devicePosition].
  now rewrite (parseOptionValueAsInt_without_digit _ H).
Qed.

Lemma non_numeric_position_gives_undefined_witness :
  getCommandDeviceAddress sample (commandOptions None (Some " -x1")) (mkWorld 1 [])
  = (Normal None, mkWorld 1 []).
Proof.
  exact (non_numeric_position_gives_undefined sample " -x1" (mkWorld 1 []) eq_refl).
Defined.
